(** * PromptForge: role profiles and the version endpoints

    A shallow embedding of [prompt_forge/core/role_profiles.py] and of the
    request handlers of [prompt_forge/api/versions.py].  Python values are
    embedded as follows: [str] as [string], [int] as [Z], [None] as the
    [None] of [option], an ordered [dict] of sections as an association
    list, a table of rows as a list of records, and a handler as a function
    in a small state-and-error monad over the row store. *)

From stdpp Require Import base option list strings gmap sorting pretty.
From Stdlib Require Import ZArith Lia.

Local Open Scope string_scope.
Local Open Scope Z_scope.
Local Open Scope list_scope.

(** ** Role profiles ([core/role_profiles.py]) *)

Module RoleProfiles.

(** [ROLE_PROFILES: dict[str, list[str] | None]].  A value is either a list
    of section keys or Python's [None] (embedded as the inner [None]); the
    outer option of a map lookup tells whether the key is in the dict. *)
Definition ROLE_PROFILES : gmap string (option (list string)) :=
  <["king" := None]>
  (<["developer" := Some ["voice"; "identity"; "boundaries"; "thinking_mode";
                          "anti_patterns"; "communication_rules"]]>
  (<["reviewer" := Some ["voice"; "identity"; "boundaries"; "communication_rules"]]>
  (<["tester" := Some ["voice"; "identity"; "boundaries"; "communication_rules"]]>
  (<["security" := Some ["voice"; "identity"; "boundaries"; "communication_rules"]]>
   ∅)))).

(** [dict.get(key)]: the stored value, or [None] when the key is missing.
    It raises nothing for a [str] key. *)
Definition dict_get {V} (d : gmap string (option V)) (key : string) : option V :=
  match d !! key with
  | Some v => v
  | None => None
  end.

(** [get_sections_for_role(role)] is [ROLE_PROFILES.get(role)]. *)
Definition get_sections_for_role (role : string) : option (list string) :=
  dict_get ROLE_PROFILES role.

(** The roles that are keys of the table. *)
Definition known_roles : list string :=
  ["king"; "developer"; "reviewer"; "tester"; "security"].

End RoleProfiles.

Import RoleProfiles.

(** ** Data model *)

(** A section map: an ordered [dict] from section key to text. *)
Abbreviation Content := (list (string * string)).

(** [content.get(key)] and [key in content]. *)
Fixpoint content_get (key : string) (content : Content) : option string :=
  match content with
  | [] => None
  | (k, text) :: rest => if decide (k = key) then Some text else content_get key rest
  end.

Definition content_keys (content : Content) : list string := content.*1.

(** A row of [prompt_versions]: an immutable commit. *)
Record Version := mkVersion {
  v_prompt_id : string;
  v_branch : string;
  v_version : Z;
  v_content : Content;
  v_message : string;
  v_author : string;
  v_parent_version : option Z;
  v_content_hash : string;
  v_created_at : string;
}.

(** A row of the prompt registry. *)
Record Prompt := mkPrompt {
  p_id : string;
  p_slug : string;
}.

(** A row of [prompt_subscriptions]. *)
Record Subscription := mkSubscription {
  sub_id : Z;
  sub_prompt_id : string;
  sub_agent_id : string;
  sub_subscribed_at : string;
  sub_last_pulled_at : string;
}.

#[global] Instance Version_eq_dec : EqDecision Version.
Proof. solve_decision. Defined.
#[global] Instance Prompt_eq_dec : EqDecision Prompt.
Proof. solve_decision. Defined.
#[global] Instance Subscription_eq_dec : EqDecision Subscription.
Proof. solve_decision. Defined.

(** The row store behind [SupabaseClient]: one list of rows per table. *)
Record Store := mkStore {
  prompts : list Prompt;
  prompt_versions : list Version;
  prompt_subscriptions : list Subscription;
}.

Definition empty_store : Store := mkStore [] [] [].

(** ** Errors, events and the handler monad *)

(** The error taxonomy of the core. *)
Inductive CoreError :=
  | NotFound | Conflict | InvalidContent | StorageUnavailable | RolePolicyUnknown.

(** What a handler can raise.  Every constructor stands for an instance of a
    subclass of Python's [Exception], which is what [except Exception]
    catches. *)
Inductive Exn :=
  | HTTPException (status_code : Z) (detail : string)
  | RequestValidationError (param : string)
  | CoreFailure (e : CoreError)
  | Exception (msg : string).

Definition core_error_str (e : CoreError) : string :=
  match e with
  | NotFound => "NotFound"
  | Conflict => "Conflict"
  | InvalidContent => "InvalidContent"
  | StorageUnavailable => "StorageUnavailable"
  | RolePolicyUnknown => "RolePolicyUnknown"
  end.

(** [str(e)], the text [_notify_subscribers] logs.  An [HTTPException]
    prints as "<status_code>: <detail>" and an exception built from a message
    prints as that message.  The classes of the request validation error and
    of the core's errors are not defined in the sources: they are given the
    name of the parameter and of the error, and what is proved about the
    warning holds whatever text they print. *)
Definition exn_str (e : Exn) : string :=
  match e with
  | HTTPException status_code detail => pretty status_code +:+ ": " +:+ detail
  | RequestValidationError param => param
  | CoreFailure e => core_error_str e
  | Exception msg => msg
  end.

(** The status a raised exception is answered with. *)
Definition status_of (e : Exn) : Z :=
  match e with
  | HTTPException status_code _ => status_code
  | RequestValidationError _ => 422
  | CoreFailure NotFound => 404
  | CoreFailure Conflict => 409
  | CoreFailure InvalidContent => 422
  | CoreFailure RolePolicyUnknown => 422
  | CoreFailure StorageUnavailable => 503
  | Exception _ => 500
  end.

(** The payload of [publisher.publish]. *)
Record Event := mkEvent {
  ev_type : string;
  ev_subject : string;
  ev_slug : string;
  ev_prompt_id : string;
  ev_old_version : Z;
  ev_new_version : Z;
  ev_change_note : string;
  ev_priority : string;
}.

(** A call on the [db] client made by a handler of [api/versions.py]. *)
Inductive DbCall :=
  | DbSelect (table : string) (prompt_id : string)
  | DbUpdate (table : string) (id : Z) (last_pulled_at : string)
  | DbInsert (table : string) (prompt_id agent_id subscribed_at last_pulled_at : string).

(** A line written through [logger]. *)
Inductive LogLine :=
  | LogInfo (event agent_id slug : string) (new_version : Z)
  | LogWarning (event error : string).

(** What a handler runs in: the row store, the calls made on [db], the
    log, and the events the publisher has accepted. *)
Record World := mkWorld {
  w_db : Store;
  w_calls : list DbCall;
  w_log : list LogLine;
  w_published : list Event;
}.

Definition world_of (db : Store) : World := mkWorld db [] [] [].

Inductive Outcome (A : Type) :=
  | Returned (a : A)
  | Raised (e : Exn).
Arguments Returned {A} a.
Arguments Raised {A} e.

(** A computation: it returns or raises, and leaves a world behind either
    way (Python undoes nothing when an exception passes). *)
Definition M (A : Type) : Type := World → Outcome A * World.

#[global] Instance M_ret : MRet M := λ A a w, (Returned a, w).
#[global] Instance M_bind : MBind M := λ A B k m w,
  match m w with
  | (Returned a, w') => k a w'
  | (Raised e, w') => (Raised e, w')
  end.

Definition raise {A} (e : Exn) : M A := λ w, (Raised e, w).
Definition get_db : M Store := λ w, (Returned (w_db w), w).
Definition put_db (db : Store) : M unit := λ w,
  (Returned (), mkWorld db (w_calls w) (w_log w) (w_published w)).
Definition record_call (c : DbCall) : M unit := λ w,
  (Returned (), mkWorld (w_db w) (w_calls w ++ [c]) (w_log w) (w_published w)).
Definition write_log (l : LogLine) : M unit := λ w,
  (Returned (), mkWorld (w_db w) (w_calls w) (w_log w ++ [l]) (w_published w)).

(** [try: body except Exception as e: handler(e)]. *)
Definition try_except {A} (body : M A) (handler : Exn → M A) : M A := λ w,
  match body w with
  | (Returned a, w') => (Returned a, w')
  | (Raised e, w') => handler e w'
  end.

(** [for x in xs: body(x)]: an exception leaves the loop. *)
Fixpoint for_each {A} (xs : list A) (body : A → M unit) : M unit :=
  match xs with
  | [] => mret ()
  | x :: rest => body x ≫= λ _, for_each rest body
  end.

(** Unfolds the operations of the monad. *)
Ltac unfold_M :=
  unfold mbind, M_bind, mret, M_ret, raise, get_db, put_db, record_call, write_log,
         try_except in *.

(** ** Collaborators that are not among the sources *)

(** The row-store client [SupabaseClient] ([db/client.py]) is missing.  The
    spec describes it as "key-filtered select / insert / update on named
    tables, single-row atomicity assumed"; the handlers call it on
    [prompt_subscriptions] only, and every call is recorded in [w_calls]. *)
Definition SUBSCRIPTIONS : string := "prompt_subscriptions".

(** An id no row of the table has. *)
Definition fresh_id (rows : list Subscription) : Z :=
  1 + foldr Z.max 0 (sub_id <$> rows).

Definition set_last_pulled_at (now : string) (r : Subscription) : Subscription :=
  mkSubscription (sub_id r) (sub_prompt_id r) (sub_agent_id r) (sub_subscribed_at r) now.

Definition touch (id : Z) (now : string) (r : Subscription) : Subscription :=
  if decide (sub_id r = id) then set_last_pulled_at now r else r.

(** Modelled from the spec: [db.select(table, filters={"prompt_id": ...})],
    the key-filtered select: the rows whose [prompt_id] is the given one, in
    table order. *)
Definition db_select (prompt_id : string) : M (list Subscription) :=
  _ ← record_call (DbSelect SUBSCRIPTIONS prompt_id);
  db ← get_db;
  mret (filter (λ r, sub_prompt_id r = prompt_id) (prompt_subscriptions db)).

(** Modelled from the spec: [db.update(table, id, {"last_pulled_at": ...})]:
    the field is set in the rows with the given [id], nothing else changes. *)
Definition db_update (id : Z) (last_pulled_at : string) : M unit :=
  _ ← record_call (DbUpdate SUBSCRIPTIONS id last_pulled_at);
  db ← get_db;
  put_db (mkStore (prompts db) (prompt_versions db)
                  (touch id last_pulled_at <$> prompt_subscriptions db)).

(** Modelled from the spec: [db.insert(table, row)]: the row is appended
    under a fresh id. *)
Definition db_insert (prompt_id agent_id subscribed_at last_pulled_at : string) : M unit :=
  _ ← record_call (DbInsert SUBSCRIPTIONS prompt_id agent_id subscribed_at last_pulled_at);
  db ← get_db;
  put_db (mkStore (prompts db) (prompt_versions db)
                  (prompt_subscriptions db ++
                   [mkSubscription (fresh_id (prompt_subscriptions db)) prompt_id
                                   agent_id subscribed_at last_pulled_at])).

(** Modelled from the spec: [PromptRegistry.get_prompt] ([core/registry.py]
    is missing): the prompt registered under the slug, or [None].  Prompts
    are "created externally (registry collaborator)". *)
Definition registry_get_prompt (slug : string) : M (option Prompt) :=
  db ← get_db;
  mret (head (filter (λ p, p_slug p = slug) (prompts db))).

(** The event publisher of [core/events.py]: whether it is connected, and
    whether [publish] raises, which may depend on what it published before. *)
Record Publisher := mkPublisher {
  _connected : bool;
  publish_fails : list Event → Event → option Exn;
}.

Definition publisher_publish (publisher : Publisher) (ev : Event) : M unit := λ w,
  match publish_fails publisher (w_published w) ev with
  | Some e => (Raised e, w)
  | None => (Returned (), mkWorld (w_db w) (w_calls w) (w_log w) (w_published w ++ [ev]))
  end.

(** ** The composition step *)

Record ComposedPrompt := mkComposed {
  cp_prompt_id : string;
  cp_branch : string;
  cp_version : Z;
  cp_sections : Content;
}.

(** The sections of [content] under the [keys], in the order of [keys]; a
    key the content lacks yields nothing. *)
Definition select_sections (keys : list string) (content : Content) : Content :=
  omap (λ k, (λ text, (k, text)) <$> content_get k content) keys.

(** Modelled from the spec: the composition step of
    [CompositionResolver.resolve] ([core/resolver.py] is missing).  "If the
    profile is the all sentinel, output is every section in version.content
    in its original order.  If the profile is an explicit allow-list, output
    is exactly the sections whose key appears in the allow-list, emitted in
    the allow-list's declared order; a listed key absent from content is
    silently skipped."  [compose_with] takes the profile as the table
    stores it, [None] being the sentinel. *)
Definition compose_with (profile : option (list string)) (version : Version) : ComposedPrompt :=
  mkComposed (v_prompt_id version) (v_branch version) (v_version version)
    match profile with
    | None => v_content version
    | Some keys => select_sections keys (v_content version)
    end.

(** Modelled from the spec: [CompositionResolver.resolve]
    ([core/resolver.py] is missing).  "Looks up role in the RoleProfile
    table", here the [ROLE_PROFILES] of the source, and composes with the
    profile found; "an unrecognized role fails with RolePolicyUnknown; the
    core does not guess a default role". *)
Definition resolve (version : Version) (role : string) : CoreError + ComposedPrompt :=
  match ROLE_PROFILES !! role with
  | Some profile => inr (compose_with profile version)
  | None => inl RolePolicyUnknown
  end.

(** ** The structural differ *)

Inductive ChangeKind := Added | Removed | Modified | Unchanged.

Record DiffEntry := mkDiffEntry {
  de_key : string;
  de_kind : ChangeKind;
  de_old : option string;
  de_new : option string;
}.

Record DiffSummary := mkDiffSummary {
  ds_added : nat;
  ds_removed : nat;
  ds_modified : nat;
  ds_unchanged : nat;
}.

#[global] Instance ChangeKind_eq_dec : EqDecision ChangeKind.
Proof. solve_decision. Defined.

Definition entry_of_old (content_b : Content) (section : string * string) : DiffEntry :=
  let '(key, old) := section in
  match content_get key content_b with
  | None => mkDiffEntry key Removed (Some old) None
  | Some new =>
      mkDiffEntry key (if decide (old = new) then Unchanged else Modified) (Some old) (Some new)
  end.

Definition count_kind (kind : ChangeKind) (changes : list DiffEntry) : nat :=
  length (filter (λ e, de_kind e = kind) changes).

(** Modelled from the spec: [StructuralDiffer.diff] ([core/differ.py] is
    missing): the keys of [content_a] in their order, then the keys only in
    [content_b] in their order; the summary counts the entries per kind (its
    similarity ratio, a float quotient of these counts, is left out). *)
Definition differ_diff (content_a content_b : Content) : list DiffEntry * DiffSummary :=
  let changes :=
    (entry_of_old content_b <$> content_a) ++
    ((λ s : string * string, mkDiffEntry s.1 Added None (Some s.2)) <$>
       filter (λ s, content_get s.1 content_a = None) content_b) in
  (changes,
   mkDiffSummary (count_kind Added changes) (count_kind Removed changes)
                 (count_kind Modified changes) (count_kind Unchanged changes)).

(** ** Version control and the endpoints *)

Record VersionCreate := mkVersionCreate {
  vc_content : Content;
  vc_message : string;
  vc_author : string;
  vc_branch : string;
  vc_priority : option string;
}.

Record RollbackRequest := mkRollbackRequest {
  rb_version : Z;
  rb_author : string;
}.

Record DiffResponse := mkDiffResponse {
  dr_prompt_id : string;
  dr_from_version : Z;
  dr_to_version : Z;
  dr_changes : list DiffEntry;
  dr_summary : DiffSummary;
}.

(** The versions of one (prompt, branch), in the order they were stored. *)
Definition branch_versions (db : Store) (prompt_id branch : string) : list Version :=
  filter (λ v, v_prompt_id v = prompt_id ∧ v_branch v = branch) (prompt_versions db).

(** The head: "the highest committed version number for a given (prompt,
    branch) pair", 0 for a branch without history. *)
Definition head_version (db : Store) (prompt_id branch : string) : Z :=
  foldr Z.max 0 (v_version <$> branch_versions db prompt_id branch).

(** The first stored version with the given number on a (prompt, branch),
    if any. *)
Definition find_version (db : Store) (prompt_id : string) (version : Z) (branch : string)
  : option Version :=
  head (filter (λ v, v_version v = version) (branch_versions db prompt_id branch)).

(** The order of [history]: version descending. *)
Definition newer_first : relation Version := λ a b, v_version b ≤ v_version a.

#[global] Instance newer_first_dec a b : Decision (newer_first a b).
Proof. unfold newer_first. apply _. Defined.

(** The ceiling of [Query(default=50, le=200)] in [list_versions]. *)
Definition LIMIT_DEFAULT : Z := 50.
Definition LIMIT_LE : Z := 200.

(** The store with one more row in [prompt_versions]. *)
Definition store_append (db : Store) (v : Version) : Store :=
  mkStore (prompts db) (prompt_versions db ++ [v]) (prompt_subscriptions db).

(** The world after a commit has stored [v]. *)
Definition with_version (w : World) (v : Version) : World :=
  mkWorld (store_append (w_db w) v) (w_calls w) (w_log w) (w_published w).

(** [history[0]["version"] if history else 0]. *)
Definition old_version_of (history : list Version) : Z :=
  match history with
  | h :: _ => v_version h
  | [] => 0
  end.

Section Service.

(** [ContentCodec]'s hash of a section map ([core/vcs.py] and the codec are
    missing; the hash is a pure function of the content). *)
Variable content_hash : Content → string.

(** The "implementation ceiling" of [history]. *)
Variable history_ceiling : positive.

(** The branch [vcs.rollback(prompt_id, version, author)] works on: the
    endpoint passes none and the spec names none. *)
Variable rollback_branch : string.

(** What [get_event_publisher()] does: it raises or returns the publisher. *)
Variable get_event_publisher : Exn + Publisher.

(** Modelled from the spec: [VersionControl.history] ([core/vcs.py] is
    missing): "returns up to limit most recent Versions, ordered by version
    descending"; "values above an implementation ceiling are clamped, never
    rejected".  The endpoints build a [VersionResponse] from each entry, so
    an entry is the whole row.  For a limit that is not positive the spec
    names no result; no entry is returned here. *)
Definition vcs_history (prompt_id branch : string) (limit : Z) : M (list Version) :=
  db ← get_db;
  mret (take (Z.to_nat (Z.min limit (Z.pos history_ceiling)))
             (merge_sort newer_first (branch_versions db prompt_id branch))).

(** What [create_version] reads as the old version before it commits: the
    version of the first entry of [history(limit=1)], or 0. *)
Definition observed_head (db : Store) (prompt_id branch : string) : Z :=
  old_version_of
    (take (Z.to_nat (Z.min 1 (Z.pos history_ceiling)))
          (merge_sort newer_first (branch_versions db prompt_id branch))).

(** Modelled from the spec: [VersionControl.get_version]: "exact lookup; no
    fallback to nearest version". *)
Definition vcs_get_version (prompt_id : string) (version : Z) (branch : string)
  : M (option Version) :=
  db ← get_db;
  mret (find_version db prompt_id version branch).

(** The row a commit writes: numbered one above the head, its parent "the
    prior head at commit time" (none for the first version of a branch). *)
Definition committed (db : Store) (prompt_id : string) (content : Content)
    (message author branch now : string) : Version :=
  mkVersion prompt_id branch (head_version db prompt_id branch + 1) content message author
            (if decide (head_version db prompt_id branch = 0) then None
             else Some (head_version db prompt_id branch))
            (content_hash content) now.

(** Modelled from the spec: [VersionControl.commit]: "determines the
    current head version for (prompt, branch) (0 if branch has no history),
    assigns version = head + 1, persists atomically, and returns the new
    Version"; "fails with InvalidContent if content is empty"; the parent is
    "the prior head at commit time".  A section's text is a [str] by type.
    [Conflict] arises from a concurrent commit only and [StorageUnavailable]
    from the store; neither occurs in this sequential, in-memory store. *)
Definition vcs_commit (prompt_id : string) (content : Content) (message author branch : string)
    (now : string) : M Version :=
  match content with
  | [] => raise (CoreFailure InvalidContent)
  | _ =>
    db ← get_db;
    let version := committed db prompt_id content message author branch now in
    _ ← put_db (store_append db version);
    mret version
  end.

(** Modelled from the spec: [VersionControl.rollback]: "reads the target
    Version's content, then performs a commit with that content, a generated
    message recording the rollback source, and the given author.  If the
    target version does not exist, returns NotFound without creating any new
    Version."  [None] is the falsy result the endpoint answers with 404. *)
Definition vcs_rollback (prompt_id : string) (version : Z) (author : string) (now : string)
  : M (option Version) :=
  target ← vcs_get_version prompt_id version rollback_branch;
  match target with
  | None => mret None
  | Some t =>
    new ← vcs_commit prompt_id (v_content t) ("Rollback to version " +:+ pretty version)
                     author rollback_branch now;
    mret (Some new)
  end.

(** *** The endpoints of [api/versions.py] *)

(** [_auto_subscribe(prompt_id, agent_id, db)]; [now] is the clock reading
    of [datetime.now(timezone.utc).isoformat()]. *)
Definition _auto_subscribe (prompt_id : string) (agent_id : option string) (now : string)
  : M unit :=
  match agent_id with
  | None => mret ()
  | Some agent =>
    if decide (agent = "") then mret ()
    else
      rows ← db_select prompt_id;
      match filter (λ r, sub_agent_id r = agent) rows with
      | r :: _ => db_update (sub_id r) now
      | [] => db_insert prompt_id agent now now
      end
  end.

Definition subject_of (agent_id : string) : string :=
  "swarm.forge.agent." +:+ agent_id +:+ ".prompt-updated".

(** The body of the [try] block of [_notify_subscribers]. *)
Definition publish_to_subscribers (prompt_id slug : string) (old_version new_version : Z)
    (change_note priority : string) : M unit :=
  publisher ← match get_event_publisher with
              | inl e => raise e
              | inr p => mret p
              end;
  if negb (_connected publisher) then mret ()
  else
    subs ← db_select prompt_id;
    for_each subs (λ sub,
      let agent_id := sub_agent_id sub in
      _ ← publisher_publish publisher
            (mkEvent "prompt.updated" (subject_of agent_id) slug prompt_id
                     old_version new_version change_note priority);
      write_log (LogInfo "subscription.notified" agent_id slug new_version)).

(** [_notify_subscribers(...)]: the whole body stands in [try], and
    [except Exception as e] logs a warning with [str(e)] and returns. *)
Definition _notify_subscribers (prompt_id slug : string) (old_version new_version : Z)
    (change_note priority : string) : M unit :=
  try_except
    (publish_to_subscribers prompt_id slug old_version new_version change_note priority)
    (λ e, write_log (LogWarning "subscription.notify_failed" (exn_str e))).

Definition prompt_not_found {A} (slug : string) : M A :=
  raise (HTTPException 404 ("Prompt '" +:+ slug +:+ "' not found")).

Definition version_not_found {A} (version : Z) : M A :=
  raise (HTTPException 404 ("Version " +:+ pretty version +:+ " not found")).

(** [getattr(data, 'priority', 'normal') or 'normal']. *)
Definition priority_of (data : VersionCreate) : string :=
  match vc_priority data with
  | Some p => if decide (p = "") then "normal" else p
  | None => "normal"
  end.

(** [POST /{slug}/versions]. *)
Definition create_version (slug : string) (data : VersionCreate) (now : string) : M Version :=
  prompt ← registry_get_prompt slug;
  match prompt with
  | None => prompt_not_found slug
  | Some prompt =>
    history ← vcs_history (p_id prompt) (vc_branch data) 1;
    let old_version := old_version_of history in
    version ← vcs_commit (p_id prompt) (vc_content data) (vc_message data)
                         (vc_author data) (vc_branch data) now;
    _ ← _notify_subscribers (p_id prompt) slug old_version (v_version version)
                            (vc_message data) (priority_of data);
    mret version
  end.

(** [GET /{slug}/versions]: [branch] defaults to "main", and [limit] is
    [Query(default=50, le=200)], which the framework checks before the body
    runs: a value above 200 is answered with a validation error. *)
Definition list_versions (slug : string) (branch : option string) (limit : option Z)
  : M (list Version) :=
  let branch := default "main" branch in
  let limit := default LIMIT_DEFAULT limit in
  if decide (limit ≤ LIMIT_LE) then
    prompt ← registry_get_prompt slug;
    match prompt with
    | None => prompt_not_found slug
    | Some prompt => vcs_history (p_id prompt) branch limit
    end
  else raise (RequestValidationError "limit").

(** [GET /{slug}/versions/{version}]. *)
Definition get_version (slug : string) (version : Z) (branch : option string)
    (x_agent_id : option string) (now : string) : M Version :=
  let branch := default "main" branch in
  prompt ← registry_get_prompt slug;
  match prompt with
  | None => prompt_not_found slug
  | Some prompt =>
    ver ← vcs_get_version (p_id prompt) version branch;
    match ver with
    | None => version_not_found version
    | Some ver =>
      _ ← _auto_subscribe (p_id prompt) x_agent_id now;
      mret ver
    end
  end.

(** [GET /{slug}/diff]. *)
Definition diff_versions (slug : string) (from_version to_version : Z) (branch : option string)
  : M DiffResponse :=
  let branch := default "main" branch in
  prompt ← registry_get_prompt slug;
  match prompt with
  | None => prompt_not_found slug
  | Some prompt =>
    v_from ← vcs_get_version (p_id prompt) from_version branch;
    v_to ← vcs_get_version (p_id prompt) to_version branch;
    match v_from, v_to with
    | Some v_from, Some v_to =>
      let diff := differ_diff (v_content v_from) (v_content v_to) in
      mret (mkDiffResponse (p_id prompt) from_version to_version diff.1 diff.2)
    | _, _ => raise (HTTPException 404 "One or both versions not found")
    end
  end.

(** [POST /{slug}/rollback]. *)
Definition rollback_version (slug : string) (data : RollbackRequest) (now : string)
  : M Version :=
  prompt ← registry_get_prompt slug;
  match prompt with
  | None => prompt_not_found slug
  | Some prompt =>
    version ← vcs_rollback (p_id prompt) (rb_version data) (rb_author data) now;
    match version with
    | None => version_not_found (rb_version data)
    | Some version => mret version
    end
  end.

End Service.

(** ** Runs, invariants and sample data *)

(** A request to [POST /{slug}/versions] with the clock reading it meets. *)
Record CommitRequest := mkCommitRequest {
  cr_slug : string;
  cr_data : VersionCreate;
  cr_now : string;
}.

(** The requests served one after the other; the outcomes in order. *)
Fixpoint serve_commits (content_hash : Content → string) (history_ceiling : positive)
    (get_event_publisher : Exn + Publisher) (requests : list CommitRequest) (w : World)
  : list (Outcome Version) * World :=
  match requests with
  | [] => ([], w)
  | r :: rest =>
    let '(o, w1) := create_version content_hash history_ceiling get_event_publisher
                                   (cr_slug r) (cr_data r) (cr_now r) w in
    let '(os, w2) := serve_commits content_hash history_ceiling get_event_publisher rest w1 in
    (o :: os, w2)
  end.

(** The versions an outcome list reports for one (prompt, branch). *)
Definition returned_on (prompt_id branch : string) (outcomes : list (Outcome Version))
  : list Version :=
  omap (λ o, match o with
             | Returned v =>
               if decide (v_prompt_id v = prompt_id ∧ v_branch v = branch) then Some v else None
             | Raised _ => None
             end) outcomes.

(** 1, 2, ..., n. *)
Definition one_to (n : nat) : list Z := Z.of_nat <$> seq 1 n.

(** The version numbers of every (prompt, branch), in the order of their
    commits, are 1, 2, 3, ... *)
Definition gapless (db : Store) : Prop :=
  ∀ prompt_id branch,
    v_version <$> branch_versions db prompt_id branch
    = one_to (length (branch_versions db prompt_id branch)).

(** No stored version has an empty content ([commit] refuses one). *)
Definition contents_nonempty (db : Store) : Prop :=
  ∀ v, v ∈ prompt_versions db → v_content v ≠ [].

(** A slug registered under a prompt, as [registry.get_prompt] finds it. *)
Definition registered (db : Store) (slug : string) (prompt : Prompt) : Prop :=
  head (filter (λ p, p_slug p = slug) (prompts db)) = Some prompt.

(** The subscription rows of one agent to one prompt. *)
Definition rows_of (prompt_id agent_id : string) (rows : list Subscription)
  : list Subscription :=
  filter (λ r, sub_agent_id r = agent_id) (filter (λ r, sub_prompt_id r = prompt_id) rows).

(** Sample data. *)
Definition sample_hash (content : Content) : string :=
  String.concat ";" ((λ s : string * string, s.1 +:+ "=" +:+ s.2) <$> content).

Definition sample_content : Content :=
  [("identity", "i1"); ("tools", "t1"); ("voice", "v1")].

Definition sample_version : Version :=
  mkVersion "p-1" "main" 1 sample_content "first" "ada" None
            (sample_hash sample_content) "2024-01-01T00:00:00".

Definition sample_subscription : Subscription :=
  mkSubscription 1 "p-1" "agent-7" "2024-01-02T00:00:00" "2024-01-02T00:00:00".

Definition sample_db : Store :=
  mkStore [mkPrompt "p-1" "greeter"] [sample_version] [].

Definition sample_db_subscribed : Store :=
  mkStore [mkPrompt "p-1" "greeter"] [sample_version] [sample_subscription].

Definition sample_db_empty : Store := mkStore [mkPrompt "p-1" "greeter"] [] [].

Definition sample_create : VersionCreate :=
  mkVersionCreate [("voice", "v2"); ("identity", "i1")] "second" "ada" "main" None.

(** Five requests: two to main, one with an empty content, one to another
    branch, one under a slug that is not registered. *)
Definition sample_requests : list CommitRequest :=
  [mkCommitRequest "greeter"
     (mkVersionCreate [("voice", "v1"); ("identity", "i1")] "first" "ada" "main" None) "t1";
   mkCommitRequest "greeter" (mkVersionCreate [] "empty" "ada" "main" None) "t2";
   mkCommitRequest "greeter"
     (mkVersionCreate [("voice", "d1")] "draft" "bob" "draft" (Some "high")) "t3";
   mkCommitRequest "nobody" (mkVersionCreate [("voice", "x")] "lost" "bob" "main" None) "t4";
   mkCommitRequest "greeter" sample_create "t5"].

(** A connected publisher whose every [publish] raises. *)
Definition failing_publisher : Exn + Publisher :=
  inr (mkPublisher true (λ _ _, Some (Exception "nats: connection closed"))).

(** ** Notifications and subscriptions as data *)

(** The event [_notify_subscribers] publishes for one subscription row. *)
Definition notification (prompt_id slug : string) (old_version new_version : Z)
    (change_note priority : string) (sub : Subscription) : Event :=
  mkEvent "prompt.updated" (subject_of (sub_agent_id sub)) slug prompt_id
          old_version new_version change_note priority.

(** The line it logs after a publish that did not raise. *)
Definition notified_line (slug : string) (new_version : Z) (sub : Subscription) : LogLine :=
  LogInfo "subscription.notified" (sub_agent_id sub) slug new_version.

(** The rows [db.select] returns for a prompt. *)
Definition subscribers_of (db : Store) (prompt_id : string) : list Subscription :=
  filter (λ r, sub_prompt_id r = prompt_id) (prompt_subscriptions db).

(** The world after one select, some publishes with their log lines, and
    the lines logged after them. *)
Definition after_notifying (w : World) (prompt_id : string) (events : list Event)
    (lines : list LogLine) : World :=
  mkWorld (w_db w) (w_calls w ++ [DbSelect SUBSCRIPTIONS prompt_id])
          (w_log w ++ lines) (w_published w ++ events).

(** A publisher whose [publish] never raises. *)
Definition never_fails (publisher : Publisher) : Prop :=
  ∀ published ev, publish_fails publisher published ev = None.

(** The (prompt, agent) pair a subscription row stands for. *)
Definition subscription_key (r : Subscription) : string * string :=
  (sub_prompt_id r, sub_agent_id r).

(** Ids identify rows, and no (prompt, agent) pair has two rows. *)
Definition subscriptions_unique (rows : list Subscription) : Prop :=
  NoDup (sub_id <$> rows) ∧ NoDup (subscription_key <$> rows).

(** A connected publisher that accepts everything, and one that raises
    from its second publish on. *)
Definition working_publisher : Publisher := mkPublisher true (λ _ _, None).

Definition flaky_publisher : Publisher :=
  mkPublisher true (λ published _,
    match published with
    | [] => None
    | _ => Some (Exception "nats: timeout")
    end).

(** A publisher that is not connected. *)
Definition offline_publisher : Publisher := mkPublisher false (λ _ _, None).

(** Two agents subscribed to the sample prompt, one to another prompt. *)
Definition sample_db_two_subscribers : Store :=
  mkStore [mkPrompt "p-1" "greeter"] [sample_version]
          [mkSubscription 1 "p-1" "agent-7" "t0" "t0";
           mkSubscription 2 "p-2" "agent-8" "t0" "t0";
           mkSubscription 3 "p-1" "agent-9" "t0" "t0"].

(** * Properties *)

(** ** Role profiles and composition *)

Lemma ROLE_PROFILES_dom : dom ROLE_PROFILES = list_to_set known_roles.
Proof. unfold ROLE_PROFILES. rewrite !dom_insert_L. set_solver. Qed.

Lemma ROLE_PROFILES_unknown (role : string) :
  role ∉ known_roles → ROLE_PROFILES !! role = None.
Proof.
  intros Hrole. apply not_elem_of_dom. rewrite ROLE_PROFILES_dom. set_solver.
Qed.

Lemma ROLE_PROFILES_known (role : string) :
  role ∈ known_roles → is_Some (ROLE_PROFILES !! role).
Proof.
  intros Hrole. apply elem_of_dom. rewrite ROLE_PROFILES_dom. set_solver.
Qed.

Lemma dict_get_missing {V} (d : gmap string (option V)) key :
  d !! key = None → dict_get d key = None.
Proof. unfold dict_get. by intros ->. Qed.

Lemma get_sections_for_role_king : get_sections_for_role "king" = None.
Proof. reflexivity. Qed.

Lemma get_sections_for_role_developer :
  get_sections_for_role "developer"
  = Some ["voice"; "identity"; "boundaries"; "thinking_mode"; "anti_patterns";
          "communication_rules"].
Proof. reflexivity. Qed.

(** C9. For every role name other than king, developer, reviewer, tester
    and security, [get_sections_for_role] returns [None] (it is a total
    function: nothing is raised), which is also what it returns for "king",
    where [None] marks the full content; the two results are equal, so the
    result alone does not tell an unknown role from the all-sections role. *)
Theorem get_sections_for_role_unknown_is_king_sentinel (role : string) :
  role ∉ ["king"; "developer"; "reviewer"; "tester"; "security"] →
  ROLE_PROFILES !! role = None ∧
  ROLE_PROFILES !! "king" = Some None ∧
  get_sections_for_role role = None ∧
  get_sections_for_role role = get_sections_for_role "king".
Proof.
  intros Hrole. pose proof (ROLE_PROFILES_unknown role Hrole) as Hmiss.
  split; [done|]. split; [reflexivity|].
  unfold get_sections_for_role. rewrite (dict_get_missing _ _ Hmiss). done.
Qed.

Lemma ROLE_PROFILES_king : ROLE_PROFILES !! "king" = Some None.
Proof. reflexivity. Qed.

Lemma ROLE_PROFILES_developer :
  ROLE_PROFILES !! "developer"
  = Some (Some ["voice"; "identity"; "boundaries"; "thinking_mode"; "anti_patterns";
                "communication_rules"]).
Proof. reflexivity. Qed.

(** C1. For every role name that is not a key of the role-profile table,
    resolving a version for that role fails with [RolePolicyUnknown]; no
    profile is put in the role's place: the result is the composition of the
    version with no profile at all, neither the "all" sentinel nor any
    allow-list. *)
Theorem resolve_unknown_role_fails (role : string) (version : Version) :
  ROLE_PROFILES !! role = None →
  resolve version role = inl RolePolicyUnknown ∧
  (∀ profile, resolve version role ≠ inr (compose_with profile version)).
Proof.
  intros Hmiss. unfold resolve. rewrite Hmiss. split; [done|].
  intros profile Heq. discriminate Heq.
Qed.

Lemma content_get_Some_elem_of (key text : string) (content : Content) :
  content_get key content = Some text → (key, text) ∈ content.
Proof.
  induction content as [|[k t] rest IH]; simpl; [done|].
  case_decide as Hk.
  - intros [= ->]. subst k. left.
  - intros Hget. right. by apply IH.
Qed.

Lemma content_get_None (key : string) (content : Content) :
  content_get key content = None ↔ key ∉ content_keys content.
Proof.
  unfold content_keys.
  induction content as [|[k t] rest IH]; simpl.
  - split; [intros _; apply not_elem_of_nil | done].
  - case_decide as Hk.
    + subst k. split; [done|]. intros Hnot. exfalso. apply Hnot. left.
    + rewrite IH, not_elem_of_cons. split; [by intros ?; split|by intros [_ ?]].
Qed.

Lemma content_get_is_Some (key : string) (content : Content) :
  is_Some (content_get key content) ↔ key ∈ content_keys content.
Proof.
  rewrite <- not_eq_None_Some, content_get_None.
  destruct (decide (key ∈ content_keys content)); naive_solver.
Qed.

Lemma select_sections_cons (key : string) (keys : list string) (content : Content) :
  select_sections (key :: keys) content
  = match content_get key content with
    | Some text => (key, text) :: select_sections keys content
    | None => select_sections keys content
    end.
Proof. unfold select_sections. simpl. by destruct (content_get key content). Qed.

(** The keys emitted are the listed keys the content has, in list order. *)
Lemma select_sections_keys (keys : list string) (content : Content) :
  (select_sections keys content).*1 = filter (λ k, k ∈ content_keys content) keys.
Proof.
  induction keys as [|k keys IH]; [done|].
  rewrite select_sections_cons, filter_cons.
  destruct (content_get k content) as [text|] eqn:Hget.
  - rewrite decide_True by (apply content_get_is_Some; by rewrite Hget).
    rewrite fmap_cons. simpl. by f_equal.
  - rewrite decide_False by (by apply content_get_None). done.
Qed.

Lemma elem_of_select_sections (keys : list string) (content : Content) key text :
  (key, text) ∈ select_sections keys content
  ↔ key ∈ keys ∧ content_get key content = Some text.
Proof.
  unfold select_sections. rewrite list_elem_of_omap. split.
  - intros (k & Hk & Hsome).
    destruct (content_get k content) as [t|] eqn:Hget; simplify_eq/=. done.
  - intros [Hk Hget]. exists key. split; [done|]. by rewrite Hget.
Qed.

(** C5. For every version, resolving with role "developer" succeeds; the
    keys of the sections returned are the keys of the allow-list voice,
    identity, boundaries, thinking_mode, anti_patterns, communication_rules
    that the content has, in the order of the allow-list; each returned
    section carries the text the content has under its key; so a listed key
    the content lacks is skipped and no section outside the list appears. *)
Theorem resolve_developer_allow_list (version : Version) :
  ∃ sections,
    resolve version "developer"
    = inr (mkComposed (v_prompt_id version) (v_branch version) (v_version version) sections) ∧
    sections.*1
    = filter (λ k, k ∈ content_keys (v_content version))
             ["voice"; "identity"; "boundaries"; "thinking_mode"; "anti_patterns";
              "communication_rules"] ∧
    (∀ key text, (key, text) ∈ sections
       ↔ key ∈ ["voice"; "identity"; "boundaries"; "thinking_mode"; "anti_patterns";
                "communication_rules"]
         ∧ content_get key (v_content version) = Some text) ∧
    (∀ section, section ∈ sections → section ∈ v_content version) ∧
    NoDup sections.*1.
Proof.
  eexists. split.
  { unfold resolve, compose_with. rewrite ROLE_PROFILES_developer. reflexivity. }
  split; [apply select_sections_keys|].
  split; [intros key text; apply elem_of_select_sections|].
  split.
  - intros [key text] Hin. apply elem_of_select_sections in Hin as [_ Hget].
    by apply content_get_Some_elem_of.
  - rewrite select_sections_keys. apply NoDup_filter.
    apply (bool_decide_unpack _). by vm_compute.
Qed.

(** C6. For every version, resolving with role "king", whose profile is
    the "all" sentinel [None], succeeds and returns the version's content
    itself: every section, in the original order, none dropped. *)
Theorem resolve_king_full_content (version : Version) :
  ROLE_PROFILES !! "king" = Some None ∧
  resolve version "king"
  = inr (mkComposed (v_prompt_id version) (v_branch version) (v_version version)
                    (v_content version)).
Proof.
  split; [reflexivity|].
  unfold resolve, compose_with. by rewrite ROLE_PROFILES_king.
Qed.

(** ** The handler monad *)

Lemma bind_returned {A B} (m : M A) (k : A → M B) w a w1 :
  m w = (Returned a, w1) → (m ≫= k) w = k a w1.
Proof. unfold_M. by intros ->. Qed.

Lemma bind_raised {A B} (m : M A) (k : A → M B) w e w1 :
  m w = (Raised e, w1) → (m ≫= k) w = (Raised e, w1).
Proof. unfold_M. by intros ->. Qed.

Lemma registry_get_prompt_run (slug : string) (w : World) :
  registry_get_prompt slug w
  = (Returned (head (filter (λ p, p_slug p = slug) (prompts (w_db w)))), w).
Proof. reflexivity. Qed.

Lemma vcs_history_run (ceiling : positive) (prompt_id branch : string) (limit : Z) (w : World) :
  vcs_history ceiling prompt_id branch limit w
  = (Returned (take (Z.to_nat (Z.min limit (Z.pos ceiling)))
                    (merge_sort newer_first (branch_versions (w_db w) prompt_id branch))), w).
Proof. reflexivity. Qed.

Lemma vcs_get_version_run (prompt_id : string) (version : Z) (branch : string) (w : World) :
  vcs_get_version prompt_id version branch w
  = (Returned (find_version (w_db w) prompt_id version branch), w).
Proof. reflexivity. Qed.

Lemma vcs_commit_run (content_hash : Content → string) prompt_id content message author
    branch now (w : World) :
  vcs_commit content_hash prompt_id content message author branch now w
  = match content with
    | [] => (Raised (CoreFailure InvalidContent), w)
    | _ => let v := committed content_hash (w_db w) prompt_id content message author
                              branch now in
           (Returned v, with_version w v)
    end.
Proof. by destruct content. Qed.

Lemma vcs_commit_returned (content_hash : Content → string) prompt_id content message author
    branch now (w w1 : World) v :
  vcs_commit content_hash prompt_id content message author branch now w = (Returned v, w1) →
  content ≠ [] ∧
  v = committed content_hash (w_db w) prompt_id content message author branch now ∧
  w1 = with_version w v.
Proof.
  rewrite vcs_commit_run. destruct content; [done|]. cbv zeta. by intros [= <- <-].
Qed.

(** ** Notifications never fail a commit *)

Section Notify.

Context (get_event_publisher : Exn + Publisher).
Context (prompt_id slug : string) (old_version new_version : Z).
Context (change_note priority : string).

Lemma db_select_run (w : World) :
  db_select prompt_id w
  = (Returned (filter (λ r, sub_prompt_id r = prompt_id) (prompt_subscriptions (w_db w))),
     mkWorld (w_db w) (w_calls w ++ [DbSelect SUBSCRIPTIONS prompt_id]) (w_log w)
             (w_published w)).
Proof. reflexivity. Qed.

Lemma publish_loop_db (publisher : Publisher) (subs : list Subscription) (w : World) :
  w_db (for_each subs (λ sub,
          publisher_publish publisher
            (mkEvent "prompt.updated" (subject_of (sub_agent_id sub)) slug prompt_id
                     old_version new_version change_note priority) ≫= λ _,
          write_log (LogInfo "subscription.notified" (sub_agent_id sub) slug new_version))
        w).2
  = w_db w.
Proof.
  revert w. induction subs as [|sub subs IH]; intros w; [done|].
  simpl. unfold mbind at 1, M_bind at 1.
  unfold mbind at 1, M_bind at 1, publisher_publish.
  destruct (publish_fails publisher (w_published w) _) as [e|]; [done|].
  unfold write_log. simpl. by rewrite IH.
Qed.

Lemma publish_to_subscribers_db (w : World) :
  w_db (publish_to_subscribers get_event_publisher prompt_id slug old_version new_version
                               change_note priority w).2
  = w_db w.
Proof.
  unfold publish_to_subscribers.
  destruct get_event_publisher as [e|publisher]; [done|].
  unfold mbind at 1, M_bind at 1, mret at 1, M_ret at 1.
  destruct (_connected publisher); simpl; [|done].
  unfold mbind at 1, M_bind at 1. rewrite db_select_run.
  by rewrite publish_loop_db.
Qed.

Lemma notify_caught (w w1 : World) (e : Exn) :
  publish_to_subscribers get_event_publisher prompt_id slug old_version new_version
                         change_note priority w = (Raised e, w1) →
  _notify_subscribers get_event_publisher prompt_id slug old_version new_version
                      change_note priority w
  = (Returned (),
     mkWorld (w_db w1) (w_calls w1)
             (w_log w1 ++ [LogWarning "subscription.notify_failed" (exn_str e)])
             (w_published w1)).
Proof. unfold _notify_subscribers, try_except. by intros ->. Qed.

Lemma notify_passed (w w1 : World) :
  publish_to_subscribers get_event_publisher prompt_id slug old_version new_version
                         change_note priority w = (Returned (), w1) →
  _notify_subscribers get_event_publisher prompt_id slug old_version new_version
                      change_note priority w
  = (Returned (), w1).
Proof. unfold _notify_subscribers, try_except. by intros ->. Qed.

Lemma notify_returns (w : World) :
  ∃ w1, _notify_subscribers get_event_publisher prompt_id slug old_version new_version
                            change_note priority w = (Returned (), w1)
        ∧ w_db w1 = w_db w.
Proof.
  pose proof (publish_to_subscribers_db w) as Hdb.
  destruct (publish_to_subscribers get_event_publisher prompt_id slug old_version
              new_version change_note priority w) as [[[]|e] w1] eqn:Hbody.
  - eexists. split; [by apply notify_passed|done].
  - eexists. split; [by apply notify_caught|done].
Qed.

End Notify.

Section CreateVersion.

Context (content_hash : Content → string) (history_ceiling : positive).
Context (get_event_publisher : Exn + Publisher).

Lemma create_version_unregistered (slug : string) (data : VersionCreate) (now : string)
    (w : World) :
  head (filter (λ p, p_slug p = slug) (prompts (w_db w))) = None →
  create_version content_hash history_ceiling get_event_publisher slug data now w
  = (Raised (HTTPException 404 ("Prompt '" +:+ slug +:+ "' not found")), w).
Proof.
  intros Hnone. unfold create_version.
  rewrite (bind_returned _ _ _ _ _ (registry_get_prompt_run slug w)).
  by rewrite Hnone.
Qed.

Lemma create_version_registered (slug : string) (data : VersionCreate) (now : string)
    (w : World) (prompt : Prompt) :
  registered (w_db w) slug prompt →
  create_version content_hash history_ceiling get_event_publisher slug data now w
  = (vcs_commit content_hash (p_id prompt) (vc_content data) (vc_message data)
                (vc_author data) (vc_branch data) now ≫= λ version,
     _notify_subscribers get_event_publisher (p_id prompt) slug
       (observed_head history_ceiling (w_db w) (p_id prompt) (vc_branch data)) (v_version version)
       (vc_message data) (priority_of data) ≫= λ _,
     mret version) w.
Proof.
  intros Hreg. unfold create_version.
  rewrite (bind_returned _ _ _ _ _ (registry_get_prompt_run slug w)).
  unfold registered in Hreg. rewrite Hreg.
  by rewrite (bind_returned _ _ _ _ _ (vcs_history_run _ _ _ _ w)).
Qed.

Lemma create_version_commit_raised (slug : string) (data : VersionCreate) (now : string)
    (w w1 : World) (prompt : Prompt) (e : Exn) :
  registered (w_db w) slug prompt →
  vcs_commit content_hash (p_id prompt) (vc_content data) (vc_message data)
             (vc_author data) (vc_branch data) now w = (Raised e, w1) →
  create_version content_hash history_ceiling get_event_publisher slug data now w
  = (Raised e, w1).
Proof.
  intros Hreg Hcommit. rewrite (create_version_registered _ _ _ _ _ Hreg).
  by apply bind_raised.
Qed.

Lemma create_version_commit_returned (slug : string) (data : VersionCreate) (now : string)
    (w w1 : World) (prompt : Prompt) (version : Version) :
  registered (w_db w) slug prompt →
  vcs_commit content_hash (p_id prompt) (vc_content data) (vc_message data)
             (vc_author data) (vc_branch data) now w = (Returned version, w1) →
  ∃ w2, create_version content_hash history_ceiling get_event_publisher slug data now w
        = (Returned version, w2)
        ∧ w_db w2 = w_db w1.
Proof.
  intros Hreg Hcommit.
  rewrite (create_version_registered _ _ _ _ _ Hreg).
  rewrite (bind_returned _ _ _ _ _ Hcommit).
  destruct (notify_returns get_event_publisher (p_id prompt) slug
              (observed_head history_ceiling (w_db w) (p_id prompt) (vc_branch data))
              (v_version version) (vc_message data) (priority_of data) w1)
    as (w2 & Hnotify & Hdb).
  exists w2. by rewrite (bind_returned _ _ _ _ _ Hnotify).
Qed.

(** C7. For every commit that succeeds inside [create_version], whatever
    [get_event_publisher] and the publisher do (raise on import, be
    disconnected, raise at any subscriber), the endpoint returns the newly
    created Version and the store is the one the commit left; when the
    publishing raises, the exception is caught and logged as a
    "subscription.notify_failed" warning, and nothing is raised to the
    caller. *)
Theorem notification_failure_is_contained (slug : string) (data : VersionCreate)
    (now : string) (w w1 : World) (prompt : Prompt) (version : Version) :
  registered (w_db w) slug prompt →
  vcs_commit content_hash (p_id prompt) (vc_content data) (vc_message data)
             (vc_author data) (vc_branch data) now w = (Returned version, w1) →
  (∃ w2, create_version content_hash history_ceiling get_event_publisher slug data now w
         = (Returned version, w2)
         ∧ w_db w2 = w_db w1) ∧
  (∀ e w',
     publish_to_subscribers get_event_publisher (p_id prompt) slug
       (observed_head history_ceiling (w_db w) (p_id prompt) (vc_branch data)) (v_version version)
       (vc_message data) (priority_of data) w1 = (Raised e, w') →
     create_version content_hash history_ceiling get_event_publisher slug data now w
     = (Returned version,
        mkWorld (w_db w1) (w_calls w')
                (w_log w' ++ [LogWarning "subscription.notify_failed" (exn_str e)])
                (w_published w'))).
Proof.
  intros Hreg Hcommit. split.
  - by apply create_version_commit_returned with prompt.
  - intros e w' Hraised.
    rewrite (create_version_registered _ _ _ _ _ Hreg).
    rewrite (bind_returned _ _ _ _ _ Hcommit).
    pose proof (publish_to_subscribers_db get_event_publisher (p_id prompt) slug
                  (observed_head history_ceiling (w_db w) (p_id prompt) (vc_branch data))
                  (v_version version) (vc_message data) (priority_of data) w1) as Hdb.
    rewrite Hraised in Hdb. simpl in Hdb.
    rewrite (bind_returned _ _ _ _ _ (notify_caught _ _ _ _ _ _ _ _ _ _ Hraised)).
    by rewrite Hdb.
Qed.

End CreateVersion.

(** ** Version numbers *)

Lemma foldr_max_snoc (l : list Z) (x : Z) :
  foldr Z.max 0 (l ++ [x]) = Z.max x (foldr Z.max 0 l).
Proof. induction l as [|a l IH]; simpl; [done|]. rewrite IH. lia. Qed.

Lemma foldr_max_nonneg (l : list Z) : 0 ≤ foldr Z.max 0 l.
Proof. induction l as [|a l IH]; simpl; lia. Qed.

Lemma foldr_max_upper (l : list Z) (x : Z) : x ∈ l → x ≤ foldr Z.max 0 l.
Proof.
  induction l as [|a l IH]; [by intros ?%elem_of_nil|].
  intros [->|Hin]%elem_of_cons; simpl; [lia|]. specialize (IH Hin). lia.
Qed.

Lemma one_to_S (n : nat) : one_to (S n) = one_to n ++ [Z.of_nat (S n)].
Proof. unfold one_to. by rewrite seq_S, fmap_app. Qed.

Lemma foldr_max_one_to (n : nat) : foldr Z.max 0 (one_to n) = Z.of_nat n.
Proof.
  induction n as [|n IH]; [done|].
  rewrite one_to_S, foldr_max_snoc, IH. lia.
Qed.

Lemma elem_of_one_to (n : nat) (x : Z) : x ∈ one_to n ↔ 1 ≤ x ≤ Z.of_nat n.
Proof.
  unfold one_to. rewrite list_elem_of_fmap. split.
  - intros (i & -> & Hi). apply elem_of_seq in Hi. lia.
  - intros Hx. exists (Z.to_nat x). split; [lia|]. apply elem_of_seq. lia.
Qed.

Lemma one_to_add (n k : nat) :
  one_to (n + k) = one_to n ++ ((λ i, Z.of_nat n + Z.of_nat i) <$> seq 1 k).
Proof.
  unfold one_to. rewrite seq_app, fmap_app. f_equal.
  replace (1 + n)%nat with (n + 1)%nat by lia.
  rewrite <- (fmap_add_seq n 1 k), <- list_fmap_compose.
  apply list_fmap_ext. intros i j _. simpl. lia.
Qed.

Lemma branch_versions_append (db : Store) (v : Version) (prompt_id branch : string) :
  branch_versions (store_append db v) prompt_id branch
  = branch_versions db prompt_id branch
    ++ (if decide (v_prompt_id v = prompt_id ∧ v_branch v = branch) then [v] else []).
Proof.
  unfold branch_versions, store_append. simpl. rewrite filter_app. f_equal.
Qed.

Lemma head_version_highest (db : Store) (prompt_id branch : string) (v : Version) :
  v ∈ branch_versions db prompt_id branch →
  v_version v ≤ head_version db prompt_id branch.
Proof.
  intros Hin. apply foldr_max_upper. by apply list_elem_of_fmap_2.
Qed.

Lemma head_version_no_history (db : Store) (prompt_id branch : string) :
  branch_versions db prompt_id branch = [] → head_version db prompt_id branch = 0.
Proof. unfold head_version. by intros ->. Qed.

Lemma head_version_gapless (db : Store) (prompt_id branch : string) :
  gapless db →
  head_version db prompt_id branch
  = Z.of_nat (length (branch_versions db prompt_id branch)).
Proof.
  intros Hgap. unfold head_version. rewrite (Hgap prompt_id branch).
  apply foldr_max_one_to.
Qed.

Section Commit.

Context (content_hash : Content → string).
Context (prompt_id : string) (content : Content) (message author branch now : string).

Lemma committed_on_branch (db : Store) :
  v_prompt_id (committed content_hash db prompt_id content message author branch now)
  = prompt_id ∧
  v_branch (committed content_hash db prompt_id content message author branch now)
  = branch.
Proof. done. Qed.

Lemma branch_versions_committed (db : Store) :
  branch_versions
    (store_append db (committed content_hash db prompt_id content message author branch now))
    prompt_id branch
  = branch_versions db prompt_id branch
    ++ [committed content_hash db prompt_id content message author branch now].
Proof. rewrite branch_versions_append. by rewrite decide_True. Qed.

Lemma branch_versions_committed_other (db : Store) (prompt_id' branch' : string) :
  (prompt_id', branch') ≠ (prompt_id, branch) →
  branch_versions
    (store_append db (committed content_hash db prompt_id content message author branch now))
    prompt_id' branch'
  = branch_versions db prompt_id' branch'.
Proof.
  intros Hother. rewrite branch_versions_append.
  rewrite decide_False; [by rewrite app_nil_r|].
  simpl. intros [<- <-]. by apply Hother.
Qed.

Lemma head_version_committed (db : Store) :
  head_version
    (store_append db (committed content_hash db prompt_id content message author branch now))
    prompt_id branch
  = head_version db prompt_id branch + 1.
Proof.
  unfold head_version at 1. rewrite branch_versions_committed, fmap_app.
  simpl. rewrite foldr_max_snoc. fold (head_version db prompt_id branch). lia.
Qed.

Lemma gapless_committed (db : Store) :
  gapless db →
  gapless (store_append db
             (committed content_hash db prompt_id content message author branch now)).
Proof.
  intros Hgap p b.
  destruct (decide ((p, b) = (prompt_id, branch))) as [[= -> ->]|Hother].
  - rewrite branch_versions_committed, fmap_app, length_app. simpl.
    rewrite Nat.add_1_r, one_to_S, (Hgap prompt_id branch).
    f_equal. simpl. rewrite (head_version_gapless _ _ _ Hgap). f_equal. lia.
  - rewrite (branch_versions_committed_other _ _ _ Hother). apply Hgap.
Qed.

End Commit.

Lemma newer_first_trans : Transitive newer_first.
Proof. unfold newer_first. intros a b c ? ?. lia. Qed.

Lemma newer_first_total : Total newer_first.
Proof. unfold newer_first. intros a b. lia. Qed.

Lemma foldr_max_perm (l1 l2 : list Z) :
  l1 ≡ₚ l2 → foldr Z.max 0 l1 = foldr Z.max 0 l2.
Proof. induction 1; simpl; lia. Qed.

Lemma foldr_max_bound (l : list Z) (m : Z) :
  0 ≤ m → Forall (λ x, x ≤ m) l → foldr Z.max 0 l ≤ m.
Proof. intros Hm. induction 1; simpl; lia. Qed.

Lemma history_sorted (db : Store) (prompt_id branch : string) :
  StronglySorted newer_first (merge_sort newer_first (branch_versions db prompt_id branch)).
Proof.
  apply StronglySorted_merge_sort; [apply newer_first_trans|apply newer_first_total].
Qed.

Lemma history_perm (db : Store) (prompt_id branch : string) :
  merge_sort newer_first (branch_versions db prompt_id branch)
  ≡ₚ branch_versions db prompt_id branch.
Proof. apply merge_sort_Permutation. Qed.

(** On a gapless store the old version [create_version] reads is the head. *)
Lemma observed_head_is_head (ceiling : positive) (db : Store) (prompt_id branch : string) :
  gapless db →
  observed_head ceiling db prompt_id branch = head_version db prompt_id branch.
Proof.
  intros Hgap. unfold observed_head, head_version.
  pose proof (history_sorted db prompt_id branch) as Hsorted.
  pose proof (history_perm db prompt_id branch) as Hperm.
  rewrite <- (foldr_max_perm _ _ (fmap_Permutation v_version _ _ Hperm)).
  replace (Z.to_nat (Z.min 1 (Z.pos ceiling))) with 1%nat by lia.
  destruct (merge_sort newer_first (branch_versions db prompt_id branch)) as [|h t];
    [done|].
  change (v_version h = Z.max (v_version h) (foldr Z.max 0 (v_version <$> t))).
  apply StronglySorted_inv in Hsorted as [_ Hall].
  assert (h ∈ branch_versions db prompt_id branch) as Hin by (rewrite <- Hperm; left).
  apply (list_elem_of_fmap_2 v_version) in Hin.
  rewrite (Hgap prompt_id branch), elem_of_one_to in Hin.
  assert (foldr Z.max 0 (v_version <$> t) ≤ v_version h); [|lia].
  apply foldr_max_bound; [lia|].
  rewrite Forall_fmap. eapply Forall_impl; [exact Hall|]. by intros v Hv.
Qed.

Lemma contents_nonempty_empty : contents_nonempty empty_store.
Proof. intros v Hin. by apply elem_of_nil in Hin. Qed.

Lemma contents_nonempty_append (db : Store) (v : Version) :
  contents_nonempty db → v_content v ≠ [] → contents_nonempty (store_append db v).
Proof.
  intros Hdb Hv u Hin. unfold store_append in Hin. simpl in Hin.
  apply elem_of_app in Hin as [Hin|Hin]; [by apply Hdb|].
  apply list_elem_of_singleton in Hin. by subst u.
Qed.

Section Serving.

Context (content_hash : Content → string) (history_ceiling : positive).
Context (get_event_publisher : Exn + Publisher).

(** What one commit request does to the store: nothing when it is answered
    with an error, one appended row when it succeeds. *)
Lemma create_version_outcome (slug : string) (data : VersionCreate) (now : string)
    (w w1 : World) (o : Outcome Version) :
  create_version content_hash history_ceiling get_event_publisher slug data now w = (o, w1) →
  (∃ e, o = Raised e ∧ w1 = w) ∨
  (∃ prompt,
     registered (w_db w) slug prompt ∧ vc_content data ≠ [] ∧
     o = Returned (committed content_hash (w_db w) (p_id prompt) (vc_content data)
                             (vc_message data) (vc_author data) (vc_branch data) now) ∧
     w_db w1 = store_append (w_db w)
                 (committed content_hash (w_db w) (p_id prompt) (vc_content data)
                            (vc_message data) (vc_author data) (vc_branch data) now)).
Proof.
  destruct (head (filter (λ p, p_slug p = slug) (prompts (w_db w)))) as [prompt|] eqn:Hreg.
  - destruct (vcs_commit content_hash (p_id prompt) (vc_content data) (vc_message data)
                (vc_author data) (vc_branch data) now w) as [[version|e] w0] eqn:Hcommit.
    + destruct (create_version_commit_returned content_hash history_ceiling
                  get_event_publisher slug data now w w0 prompt version Hreg Hcommit)
        as (w2 & -> & Hdb).
      intros [= <- <-]. right. exists prompt.
      apply vcs_commit_returned in Hcommit as (Hne & -> & ->).
      by rewrite Hdb.
    + rewrite (create_version_commit_raised _ _ _ _ _ _ _ _ _ e Hreg Hcommit).
      intros [= <- <-]. left. exists e. split; [done|].
      rewrite vcs_commit_run in Hcommit. destruct (vc_content data); by simplify_eq.
  - rewrite create_version_unregistered by done.
    intros [= <- <-]. left. by eexists.
Qed.

(** Commits keep the store free of versions without content. *)
Lemma create_version_contents_nonempty (slug : string) (data : VersionCreate) (now : string)
    (w : World) :
  contents_nonempty (w_db w) →
  contents_nonempty
    (w_db (create_version content_hash history_ceiling get_event_publisher slug data now w).2).
Proof.
  intros Hdb.
  destruct (create_version content_hash history_ceiling get_event_publisher slug data now w)
    as [o w1] eqn:Hserved.
  apply create_version_outcome in Hserved as [(e & _ & ->)|(prompt & _ & Hne & _ & Hw1)];
    [done|].
  simpl. rewrite Hw1. by apply contents_nonempty_append.
Qed.

Lemma serve_commits_cons (r : CommitRequest) (rest : list CommitRequest) (w : World) :
  serve_commits content_hash history_ceiling get_event_publisher (r :: rest) w
  = let served := create_version content_hash history_ceiling get_event_publisher
                                 (cr_slug r) (cr_data r) (cr_now r) w in
    let later := serve_commits content_hash history_ceiling get_event_publisher rest
                               served.2 in
    (served.1 :: later.1, later.2).
Proof.
  simpl. destruct (create_version _ _ _ _ _ _ _) as [o w1]. simpl.
  by destruct (serve_commits _ _ _ _ _) as [os w2].
Qed.

Lemma serve_commits_gapless (requests : list CommitRequest) (w : World) :
  gapless (w_db w) →
  gapless (w_db (serve_commits content_hash history_ceiling get_event_publisher
                               requests w).2).
Proof.
  revert w. induction requests as [|r rest IH]; intros w Hgap; [done|].
  rewrite serve_commits_cons. cbv zeta. simpl. apply IH.
  destruct (create_version content_hash history_ceiling get_event_publisher
              (cr_slug r) (cr_data r) (cr_now r) w) as [o w1] eqn:Hserved.
  apply create_version_outcome in Hserved as [(e & -> & ->)|(prompt & _ & _ & _ & Hdb)];
    [done|].
  simpl. rewrite Hdb. by apply gapless_committed.
Qed.

(** The rows a run appends on a (prompt, branch) are the Versions it
    returned for it, in the order of the requests. *)
Lemma serve_commits_appends (requests : list CommitRequest) (w : World)
    (prompt_id branch : string) :
  branch_versions
    (w_db (serve_commits content_hash history_ceiling get_event_publisher requests w).2)
    prompt_id branch
  = branch_versions (w_db w) prompt_id branch
    ++ returned_on prompt_id branch
         (serve_commits content_hash history_ceiling get_event_publisher requests w).1.
Proof.
  revert w. induction requests as [|r rest IH]; intros w; [by rewrite app_nil_r|].
  rewrite serve_commits_cons. cbv zeta. simpl. rewrite IH.
  destruct (create_version content_hash history_ceiling get_event_publisher
              (cr_slug r) (cr_data r) (cr_now r) w) as [o w1] eqn:Hserved.
  apply create_version_outcome in Hserved as [(e & -> & ->)|(prompt & _ & _ & -> & Hdb)];
    [done|].
  simpl. rewrite Hdb, branch_versions_append. unfold returned_on. simpl.
  case_decide; [by rewrite <- app_assoc|by rewrite app_nil_r].
Qed.

End Serving.

(** C3. Each successful commit through [create_version] stores a Version
    numbered head + 1, the head being the highest version of the (prompt,
    branch) before the commit and 0 when the branch has no history; the new
    number is above every earlier one, the row is appended to its branch
    and becomes the head, and no other (prompt, branch) changes; on a store
    numbered without gaps the head is the old version the endpoint reads
    from [history(limit=1)].  Served
    one after the other from a store without versions, the successful
    commits of every (prompt, branch) are therefore numbered 1, 2, 3, ...
    in the order of the requests, whatever is committed elsewhere and
    whichever requests fail in between; from any store numbered without
    gaps they continue each branch at head + 1, head + 2, ... *)
Theorem commits_are_numbered_head_plus_one (content_hash : Content → string)
    (history_ceiling : positive) (get_event_publisher : Exn + Publisher) :
  (∀ slug data now w w1 version,
     create_version content_hash history_ceiling get_event_publisher slug data now w
     = (Returned version, w1) →
     ∃ prompt,
       registered (w_db w) slug prompt ∧
       v_prompt_id version = p_id prompt ∧
       v_branch version = vc_branch data ∧
       v_version version = head_version (w_db w) (p_id prompt) (vc_branch data) + 1 ∧
       (branch_versions (w_db w) (p_id prompt) (vc_branch data) = [] →
        v_version version = 1) ∧
       (gapless (w_db w) →
        v_version version
        = observed_head history_ceiling (w_db w) (p_id prompt) (vc_branch data) + 1) ∧
       (∀ u, u ∈ branch_versions (w_db w) (p_id prompt) (vc_branch data) →
             v_version u < v_version version) ∧
       branch_versions (w_db w1) (p_id prompt) (vc_branch data)
       = branch_versions (w_db w) (p_id prompt) (vc_branch data) ++ [version] ∧
       head_version (w_db w1) (p_id prompt) (vc_branch data) = v_version version ∧
       (∀ prompt_id branch,
          (prompt_id, branch) ≠ (p_id prompt, vc_branch data) →
          branch_versions (w_db w1) prompt_id branch
          = branch_versions (w_db w) prompt_id branch)) ∧
  (∀ requests w,
     gapless (w_db w) →
     ∀ prompt_id branch,
       let served :=
         serve_commits content_hash history_ceiling get_event_publisher requests w in
       branch_versions (w_db served.2) prompt_id branch
       = branch_versions (w_db w) prompt_id branch
         ++ returned_on prompt_id branch served.1 ∧
       v_version <$> returned_on prompt_id branch served.1
       = (λ i, head_version (w_db w) prompt_id branch + Z.of_nat i)
           <$> seq 1 (length (returned_on prompt_id branch served.1)) ∧
       gapless (w_db served.2)) ∧
  (∀ requests w,
     prompt_versions (w_db w) = [] →
     ∀ prompt_id branch,
       let served :=
         serve_commits content_hash history_ceiling get_event_publisher requests w in
       v_version <$> returned_on prompt_id branch served.1
       = one_to (length (returned_on prompt_id branch served.1)) ∧
       branch_versions (w_db served.2) prompt_id branch
       = returned_on prompt_id branch served.1).
Proof.
  split; [|split].
  - intros slug data now w w1 version Hserved.
    apply create_version_outcome in Hserved
      as [(e & [=] & _)|(prompt & Hreg & _ & [= ->] & Hdb)].
    exists prompt. rewrite Hdb. repeat split.
    + done.
    + intros Hnone. simpl. by rewrite head_version_no_history.
    + intros Hgap. by rewrite observed_head_is_head.
    + intros u Hu. apply head_version_highest in Hu. simpl. lia.
    + apply branch_versions_committed.
    + apply head_version_committed.
    + intros p b Hother. by apply branch_versions_committed_other.
  - intros requests w Hgap prompt_id branch served.
    pose proof (serve_commits_appends content_hash history_ceiling get_event_publisher
                  requests w prompt_id branch) as Happ.
    pose proof (serve_commits_gapless content_hash history_ceiling get_event_publisher
                  requests w Hgap) as Hgap'.
    fold served in Happ, Hgap'. split; [done|]. split; [|done].
    specialize (Hgap' prompt_id branch).
    rewrite Happ, fmap_app, length_app, one_to_add, (Hgap prompt_id branch) in Hgap'.
    apply app_inv_head in Hgap'. rewrite Hgap'.
    by rewrite (head_version_gapless _ _ _ Hgap).
  - intros requests w Hempty prompt_id branch served.
    assert (branch_versions (w_db w) prompt_id branch = []) as Hnone
      by (unfold branch_versions; by rewrite Hempty).
    assert (gapless (w_db w)) as Hgap.
    { intros p b. unfold branch_versions. by rewrite Hempty. }
    pose proof (serve_commits_appends content_hash history_ceiling get_event_publisher
                  requests w prompt_id branch) as Happ.
    rewrite Hnone in Happ. simpl in Happ. fold served in Happ.
    split; [|done]. rewrite <- Happ.
    apply (serve_commits_gapless content_hash history_ceiling get_event_publisher
             requests w Hgap).
Qed.

(** ** Rollback *)

Lemma find_version_None (db : Store) (prompt_id : string) (version : Z) (branch : string) :
  find_version db prompt_id version branch = None
  ↔ ∀ v, v ∈ branch_versions db prompt_id branch → v_version v ≠ version.
Proof.
  unfold find_version. rewrite head_None. split.
  - intros Hnil v Hin Hv.
    by eapply (filter_nil_not_elem_of (λ v, v_version v = version)).
  - intros Hall. destruct (filter _ _) as [|v rest] eqn:Hfilter; [done|].
    assert (v ∈ filter (λ v, v_version v = version)
                       (branch_versions db prompt_id branch)) as Hin
      by (rewrite Hfilter; left).
    apply list_elem_of_filter in Hin as [Hv Hin]. by destruct (Hall v Hin).
Qed.

Lemma find_version_Some (db : Store) (prompt_id : string) (version : Z) (branch : string)
    (target : Version) :
  find_version db prompt_id version branch = Some target →
  target ∈ prompt_versions db ∧ v_prompt_id target = prompt_id ∧
  v_branch target = branch ∧ v_version target = version.
Proof.
  unfold find_version, branch_versions. intros Hhead.
  apply head_Some_elem_of in Hhead.
  apply list_elem_of_filter in Hhead as [Hv Hin].
  apply list_elem_of_filter in Hin as [[Hp Hb] Hin]. done.
Qed.

Section Rollback.

Context (content_hash : Content → string) (rollback_branch : string).

Lemma vcs_rollback_run (prompt_id : string) (version : Z) (author now : string) (w : World) :
  vcs_rollback content_hash rollback_branch prompt_id version author now w
  = match find_version (w_db w) prompt_id version rollback_branch with
    | None => (Returned None, w)
    | Some target =>
      (vcs_commit content_hash prompt_id (v_content target)
                  ("Rollback to version " +:+ pretty version) author rollback_branch now
       ≫= λ new, mret (Some new)) w
    end.
Proof.
  unfold vcs_rollback.
  rewrite (bind_returned _ _ _ _ _ (vcs_get_version_run _ _ _ w)).
  by destruct (find_version _ _ _ _).
Qed.

Lemma rollback_version_registered (slug : string) (data : RollbackRequest) (now : string)
    (w : World) (prompt : Prompt) :
  registered (w_db w) slug prompt →
  rollback_version content_hash rollback_branch slug data now w
  = (vcs_rollback content_hash rollback_branch (p_id prompt) (rb_version data)
                  (rb_author data) now ≫= λ version,
     match version with
     | None => version_not_found (rb_version data)
     | Some version => mret version
     end) w.
Proof.
  intros Hreg. unfold rollback_version.
  rewrite (bind_returned _ _ _ _ _ (registry_get_prompt_run slug w)).
  unfold registered in Hreg. by rewrite Hreg.
Qed.

(** C8. For a rollback whose target version is not on the branch,
    [vcs.rollback] returns the falsy [None], the endpoint answers 404
    (NotFound), and the world is the one before: no Version is created and
    the history and the head of the branch are unchanged.  For a target that
    exists, in a store whose versions have a content, the rollback returns
    one new Version with the target's content, numbered head + 1, and the
    versions stored are the ones before, each in its place, followed by the
    new one. *)
Theorem rollback_not_found_or_appends_one (slug : string) (data : RollbackRequest)
    (now : string) (w : World) (prompt : Prompt) :
  registered (w_db w) slug prompt →
  contents_nonempty (w_db w) →
  ((∀ v, v ∈ branch_versions (w_db w) (p_id prompt) rollback_branch →
         v_version v ≠ rb_version data) →
   vcs_rollback content_hash rollback_branch (p_id prompt) (rb_version data)
                (rb_author data) now w = (Returned None, w) ∧
   rollback_version content_hash rollback_branch slug data now w
   = (Raised (HTTPException 404 ("Version " +:+ pretty (rb_version data) +:+ " not found")),
      w) ∧
   status_of (HTTPException 404 ("Version " +:+ pretty (rb_version data) +:+ " not found"))
   = status_of (CoreFailure NotFound)) ∧
  (∀ target,
     find_version (w_db w) (p_id prompt) (rb_version data) rollback_branch = Some target →
     ∃ version w1,
       rollback_version content_hash rollback_branch slug data now w
       = (Returned version, w1) ∧
       prompt_versions (w_db w1) = prompt_versions (w_db w) ++ [version] ∧
       prompts (w_db w1) = prompts (w_db w) ∧
       prompt_subscriptions (w_db w1) = prompt_subscriptions (w_db w) ∧
       v_content version = v_content target ∧
       v_prompt_id version = p_id prompt ∧
       v_branch version = rollback_branch ∧
       v_author version = rb_author data ∧
       v_version version = head_version (w_db w) (p_id prompt) rollback_branch + 1 ∧
       head_version (w_db w1) (p_id prompt) rollback_branch
       = head_version (w_db w) (p_id prompt) rollback_branch + 1 ∧
       contents_nonempty (w_db w1)).
Proof.
  intros Hreg Hnonempty. split.
  - intros Hmissing. apply find_version_None in Hmissing.
    rewrite (rollback_version_registered _ _ _ _ _ Hreg), vcs_rollback_run, Hmissing.
    repeat split.
    unfold mbind, M_bind. by rewrite vcs_rollback_run, Hmissing.
  - intros target Htarget.
    rewrite (rollback_version_registered _ _ _ _ _ Hreg).
    unfold mbind at 1, M_bind at 1. rewrite vcs_rollback_run, Htarget.
    apply find_version_Some in Htarget as (Hin & _ & _ & _).
    pose proof (Hnonempty target Hin) as Htarget.
    unfold mbind, M_bind. rewrite vcs_commit_run.
    destruct (v_content target) as [|section rest] eqn:Hcontent; [done|].
    cbv zeta. unfold mret, M_ret. do 2 eexists. split; [reflexivity|].
    repeat split.
    + apply head_version_committed.
    + by apply contents_nonempty_append.
Qed.

End Rollback.

(** ** History *)

Section History.

Context (history_ceiling : positive).

Lemma list_versions_rejected (slug : string) (branch : option string) (limit : Z)
    (w : World) :
  LIMIT_LE < limit →
  list_versions history_ceiling slug branch (Some limit) w
  = (Raised (RequestValidationError "limit"), w).
Proof.
  intros Hlimit. unfold list_versions. simpl. by rewrite decide_False by lia.
Qed.

Lemma list_versions_accepted (slug : string) (branch : option string) (limit : Z)
    (w : World) (prompt : Prompt) :
  limit ≤ LIMIT_LE →
  registered (w_db w) slug prompt →
  list_versions history_ceiling slug branch (Some limit) w
  = (Returned (take (Z.to_nat (Z.min limit (Z.pos history_ceiling)))
                    (merge_sort newer_first
                       (branch_versions (w_db w) (p_id prompt) (default "main" branch)))),
     w).
Proof.
  intros Hlimit Hreg. unfold list_versions. simpl. rewrite decide_True by done.
  rewrite (bind_returned _ _ _ _ _ (registry_get_prompt_run slug w)).
  unfold registered in Hreg. by rewrite Hreg.
Qed.

Lemma take_sorted (n : nat) (l : list Version) :
  StronglySorted newer_first l → StronglySorted newer_first (take n l).
Proof.
  intros Hsorted. rewrite <- (take_drop n l) in Hsorted.
  by apply StronglySorted_app_1_l in Hsorted.
Qed.

Lemma take_most_recent (n : nat) (l : list Version) (e v : Version) :
  StronglySorted newer_first l → e ∈ take n l → v ∈ drop n l → v_version v ≤ v_version e.
Proof.
  intros Hsorted He Hv. rewrite <- (take_drop n l) in Hsorted.
  by apply (StronglySorted_app_1_elem_of _ _ _ e v Hsorted).
Qed.

(** C4, as the code has it.  For a positive limit: above 200 the request
    is not clamped, it is rejected with a validation error (422) and the
    handler body does not run; up to 200, for a registered slug, the request
    is accepted, the world is left as it was, and the entries returned are
    at most [limit] versions of the branch, ordered by version descending,
    no version left out being newer than one returned; when [limit] and
    the ceiling of [history] cover the branch, every version is returned. *)
Theorem list_versions_limit (slug : string) (branch : option string) (limit : Z)
    (w : World) :
  0 < limit →
  (200 < limit →
   list_versions history_ceiling slug branch (Some limit) w
   = (Raised (RequestValidationError "limit"), w) ∧
   status_of (RequestValidationError "limit") = 422) ∧
  (limit ≤ 200 →
   ∀ prompt, registered (w_db w) slug prompt →
     ∃ entries,
       list_versions history_ceiling slug branch (Some limit) w = (Returned entries, w) ∧
       Z.of_nat (length entries) ≤ limit ∧
       StronglySorted newer_first entries ∧
       entries ⊆ branch_versions (w_db w) (p_id prompt) (default "main" branch) ∧
       (∀ e v, e ∈ entries →
               v ∈ branch_versions (w_db w) (p_id prompt) (default "main" branch) →
               v ∉ entries → v_version v ≤ v_version e) ∧
       (Z.of_nat (length (branch_versions (w_db w) (p_id prompt) (default "main" branch)))
        ≤ Z.min limit (Z.pos history_ceiling) →
        entries ≡ₚ branch_versions (w_db w) (p_id prompt) (default "main" branch))).
Proof.
  intros Hpos. split.
  - intros Habove. split; [|done]. apply list_versions_rejected. unfold LIMIT_LE. lia.
  - intros Hle prompt Hreg. eexists. split.
    { apply list_versions_accepted; [unfold LIMIT_LE; lia|done]. }
    pose proof (history_sorted (w_db w) (p_id prompt) (default "main" branch)) as Hsorted.
    pose proof (history_perm (w_db w) (p_id prompt) (default "main" branch)) as Hperm.
    set (n := Z.to_nat (Z.min limit (Z.pos history_ceiling))).
    set (sorted := merge_sort newer_first _) in *.
    repeat split.
    + rewrite length_take. lia.
    + by apply take_sorted.
    + intros v Hv. rewrite <- Hperm. rewrite <- (take_drop n sorted).
      apply elem_of_app. by left.
    + intros e v He Hv Hout. rewrite <- Hperm, <- (take_drop n sorted) in Hv.
      apply elem_of_app in Hv as [Hv|Hv]; [done|].
      by apply (take_most_recent n sorted).
    + intros Hall. rewrite take_ge; [done|].
      rewrite Hperm. lia.
Qed.

End History.

(** ** Subscriptions *)

Lemma touch_id (id : Z) (now : string) (r : Subscription) : sub_id (touch id now r) = sub_id r.
Proof. unfold touch. by case_decide. Qed.

Lemma touch_prompt_agent (id : Z) (now : string) (r : Subscription) :
  sub_prompt_id (touch id now r) = sub_prompt_id r ∧
  sub_agent_id (touch id now r) = sub_agent_id r ∧
  sub_subscribed_at (touch id now r) = sub_subscribed_at r.
Proof. unfold touch. by case_decide. Qed.

(** With ids that identify rows, [update] changes the one row it names. *)
Lemma touch_only_that_row (now : string) (r : Subscription) (rows : list Subscription) :
  NoDup (sub_id <$> rows) → r ∈ rows →
  touch (sub_id r) now <$> rows
  = (λ r', if decide (r' = r) then set_last_pulled_at now r else r') <$> rows.
Proof.
  intros Hids Hr. apply list_fmap_ext. intros i r' Hlookup.
  unfold touch. destruct (decide (r' = r)) as [->|Hne].
  - by rewrite decide_True.
  - rewrite decide_False; [done|]. intros Hid. apply Hne.
    apply list_elem_of_lookup in Hr as [j Hj].
    assert (i = j) as ->; [|congruence].
    eapply NoDup_lookup; [exact Hids| |].
    + by rewrite list_lookup_fmap, Hlookup.
    + rewrite list_lookup_fmap, Hj. simpl. by rewrite Hid.
Qed.

Lemma rows_of_touch (prompt_id agent_id : string) (id : Z) (now : string)
    (rows : list Subscription) :
  length (rows_of prompt_id agent_id (touch id now <$> rows))
  = length (rows_of prompt_id agent_id rows).
Proof.
  unfold rows_of. induction rows as [|r rows IH]; [done|].
  rewrite fmap_cons, !filter_cons.
  destruct (touch_prompt_agent id now r) as (-> & Hagent & _).
  case_decide; [|done]. rewrite !filter_cons, Hagent.
  case_decide; simpl; by rewrite IH.
Qed.

Lemma rows_of_app (prompt_id agent_id : string) (rows more : list Subscription) :
  rows_of prompt_id agent_id (rows ++ more)
  = rows_of prompt_id agent_id rows ++ rows_of prompt_id agent_id more.
Proof. unfold rows_of. by rewrite !filter_app. Qed.

Lemma fresh_id_fresh (rows : list Subscription) : fresh_id rows ∉ (sub_id <$> rows).
Proof.
  intros Hin. apply foldr_max_upper in Hin. unfold fresh_id in Hin. lia.
Qed.

Section AutoSubscribe.

Context (prompt_id : string) (now : string).

Lemma _auto_subscribe_run (agent : string) (w : World) :
  agent ≠ "" →
  _auto_subscribe prompt_id (Some agent) now w
  = match rows_of prompt_id agent (prompt_subscriptions (w_db w)) with
    | r :: _ =>
      (Returned (),
       mkWorld (mkStore (prompts (w_db w)) (prompt_versions (w_db w))
                        (touch (sub_id r) now <$> prompt_subscriptions (w_db w)))
               (w_calls w ++ [DbSelect SUBSCRIPTIONS prompt_id;
                              DbUpdate SUBSCRIPTIONS (sub_id r) now])
               (w_log w) (w_published w))
    | [] =>
      (Returned (),
       mkWorld (mkStore (prompts (w_db w)) (prompt_versions (w_db w))
                        (prompt_subscriptions (w_db w)
                         ++ [mkSubscription (fresh_id (prompt_subscriptions (w_db w)))
                                            prompt_id agent now now]))
               (w_calls w ++ [DbSelect SUBSCRIPTIONS prompt_id;
                              DbInsert SUBSCRIPTIONS prompt_id agent now now])
               (w_log w) (w_published w))
    end.
Proof.
  intros Hagent. unfold _auto_subscribe. rewrite decide_False by done.
  unfold mbind at 1, M_bind at 1. rewrite db_select_run. fold (rows_of prompt_id agent).
  unfold rows_of.
  destruct (filter _ (filter _ _)) as [|r rest];
    unfold db_update, db_insert; unfold_M; simpl; by rewrite <- app_assoc.
Qed.

End AutoSubscribe.

Lemma _auto_subscribe_keeps_a_row (prompt_id agent now : string) (w w1 : World) :
  agent ≠ "" →
  _auto_subscribe prompt_id (Some agent) now w = (Returned (), w1) →
  rows_of prompt_id agent (prompt_subscriptions (w_db w1)) ≠ [].
Proof.
  intros Hagent. rewrite _auto_subscribe_run by done.
  destruct (rows_of prompt_id agent (prompt_subscriptions (w_db w))) as [|r rest] eqn:Hrows.
  - intros [= <-]. simpl. rewrite rows_of_app. unfold rows_of at 2.
    rewrite filter_cons, decide_True by done. rewrite filter_cons, decide_True by done.
    intros Hnil. by apply app_eq_nil in Hnil as [_ ?].
  - intros [= <-]. simpl. intros Hnil.
    pose proof (rows_of_touch prompt_id agent (sub_id r) now
                  (prompt_subscriptions (w_db w))) as Hlen.
    by rewrite Hnil, Hrows in Hlen.
Qed.

(** C10. [_auto_subscribe] with no agent id, or an empty one, returns at
    once: no call is made on the store and the world is unchanged.  With an
    agent id: if the agent has a row for the prompt, the calls are one
    select and one update of the first such row, and (ids identifying rows)
    the table is the same except that this row's [last_pulled_at] is the
    clock reading; if it has none, the calls are one select and one insert,
    and the table is the old one followed by one new row for (prompt, agent)
    under a fresh id.  Prompts, versions, log and publisher are untouched,
    and a second fetch by the same agent finds the row and adds none. *)
Theorem auto_subscribe_upserts (prompt_id : string) (agent_id : option string)
    (now : string) (w : World) :
  (agent_id = None ∨ agent_id = Some "" →
   _auto_subscribe prompt_id agent_id now w = (Returned (), w)) ∧
  (∀ agent,
     agent_id = Some agent → agent ≠ "" →
     (∀ r rest,
        rows_of prompt_id agent (prompt_subscriptions (w_db w)) = r :: rest →
        NoDup (sub_id <$> prompt_subscriptions (w_db w)) →
        ∃ w1,
          _auto_subscribe prompt_id agent_id now w = (Returned (), w1) ∧
          w_calls w1 = w_calls w ++ [DbSelect SUBSCRIPTIONS prompt_id;
                                     DbUpdate SUBSCRIPTIONS (sub_id r) now] ∧
          prompt_subscriptions (w_db w1)
          = (λ r', if decide (r' = r) then set_last_pulled_at now r else r')
              <$> prompt_subscriptions (w_db w) ∧
          length (prompt_subscriptions (w_db w1)) = length (prompt_subscriptions (w_db w)) ∧
          prompts (w_db w1) = prompts (w_db w) ∧
          prompt_versions (w_db w1) = prompt_versions (w_db w) ∧
          w_log w1 = w_log w ∧ w_published w1 = w_published w) ∧
     (rows_of prompt_id agent (prompt_subscriptions (w_db w)) = [] →
      ∃ w1,
        _auto_subscribe prompt_id agent_id now w = (Returned (), w1) ∧
        w_calls w1 = w_calls w ++ [DbSelect SUBSCRIPTIONS prompt_id;
                                   DbInsert SUBSCRIPTIONS prompt_id agent now now] ∧
        prompt_subscriptions (w_db w1)
        = prompt_subscriptions (w_db w)
          ++ [mkSubscription (fresh_id (prompt_subscriptions (w_db w)))
                             prompt_id agent now now] ∧
        (fresh_id (prompt_subscriptions (w_db w))
           ∉ (sub_id <$> prompt_subscriptions (w_db w))) ∧
        length (rows_of prompt_id agent (prompt_subscriptions (w_db w1))) = 1%nat ∧
        prompts (w_db w1) = prompts (w_db w) ∧
        prompt_versions (w_db w1) = prompt_versions (w_db w) ∧
        w_log w1 = w_log w ∧ w_published w1 = w_published w) ∧
     (∀ later w1 w2,
        _auto_subscribe prompt_id agent_id now w = (Returned (), w1) →
        _auto_subscribe prompt_id agent_id later w1 = (Returned (), w2) →
        length (prompt_subscriptions (w_db w2)) = length (prompt_subscriptions (w_db w1)) ∧
        length (rows_of prompt_id agent (prompt_subscriptions (w_db w2)))
        = length (rows_of prompt_id agent (prompt_subscriptions (w_db w1))))).
Proof.
  split.
  - by intros [->| ->].
  - intros agent -> Hagent. split; [|split].
    + intros r rest Hrows Hids. rewrite _auto_subscribe_run, Hrows by done.
      eexists. split; [reflexivity|]. simpl.
      assert (r ∈ prompt_subscriptions (w_db w)) as Hr.
      { assert (r ∈ rows_of prompt_id agent (prompt_subscriptions (w_db w))) as Hin
          by (rewrite Hrows; left).
        unfold rows_of in Hin.
        by apply list_elem_of_filter in Hin as [_ [_ ?]%list_elem_of_filter]. }
      repeat split.
      * by apply touch_only_that_row.
      * by rewrite length_fmap.
    + intros Hrows. rewrite _auto_subscribe_run, Hrows by done.
      eexists. split; [reflexivity|]. simpl. repeat split.
      * apply fresh_id_fresh.
      * rewrite rows_of_app, Hrows. unfold rows_of. simpl.
        rewrite filter_cons, decide_True by done. by rewrite filter_cons, decide_True.
    + intros later w1 w2 Hfirst Hsecond.
      pose proof (_auto_subscribe_keeps_a_row _ _ _ _ _ Hagent Hfirst) as Hrow.
      rewrite _auto_subscribe_run in Hsecond by done.
      destruct (rows_of prompt_id agent (prompt_subscriptions (w_db w1)))
        as [|r rest] eqn:Hrows; [done|].
      injection Hsecond as <-. simpl. split.
      * by rewrite length_fmap.
      * by rewrite rows_of_touch, Hrows.
Qed.

(** ** Reads *)

Lemma _auto_subscribe_returns (prompt_id : string) (agent_id : option string) (now : string)
    (w : World) :
  ∃ w1, _auto_subscribe prompt_id agent_id now w = (Returned (), w1) ∧
        prompts (w_db w1) = prompts (w_db w) ∧
        prompt_versions (w_db w1) = prompt_versions (w_db w).
Proof.
  destruct agent_id as [agent|]; [|by eexists].
  destruct (decide (agent = "")) as [->|Hagent]; [by eexists|].
  rewrite _auto_subscribe_run by done.
  destruct (rows_of _ _ _); by eexists.
Qed.

Lemma get_version_run (slug : string) (version : Z) (branch : option string)
    (x_agent_id : option string) (now : string) (w : World) :
  get_version slug version branch x_agent_id now w
  = match head (filter (λ p, p_slug p = slug) (prompts (w_db w))) with
    | None => (Raised (HTTPException 404 ("Prompt '" +:+ slug +:+ "' not found")), w)
    | Some prompt =>
      match find_version (w_db w) (p_id prompt) version (default "main" branch) with
      | None =>
        (Raised (HTTPException 404 ("Version " +:+ pretty version +:+ " not found")), w)
      | Some ver =>
        (Returned ver, (_auto_subscribe (p_id prompt) x_agent_id now w).2)
      end
    end.
Proof.
  unfold get_version.
  rewrite (bind_returned _ _ _ _ _ (registry_get_prompt_run slug w)).
  destruct (head _) as [prompt|]; [|done].
  rewrite (bind_returned _ _ _ _ _ (vcs_get_version_run _ _ _ w)).
  destruct (find_version _ _ _ _) as [ver|]; [|done].
  destruct (_auto_subscribe_returns (p_id prompt) x_agent_id now w) as (w1 & Hsub & _).
  rewrite (bind_returned _ _ _ _ _ Hsub). by rewrite Hsub.
Qed.

Lemma list_versions_world (history_ceiling : positive) (slug : string)
    (branch : option string) (limit : option Z) (w : World) :
  (list_versions history_ceiling slug branch limit w).2 = w.
Proof.
  unfold list_versions. cbv zeta. case_decide; [|done].
  rewrite (bind_returned _ _ _ _ _ (registry_get_prompt_run slug w)).
  by destruct (head _).
Qed.

Lemma diff_versions_world (slug : string) (from_version to_version : Z)
    (branch : option string) (w : World) :
  (diff_versions slug from_version to_version branch w).2 = w.
Proof.
  unfold diff_versions. cbv zeta.
  rewrite (bind_returned _ _ _ _ _ (registry_get_prompt_run slug w)).
  destruct (head _) as [prompt|]; [|done].
  rewrite (bind_returned _ _ _ _ _ (vcs_get_version_run _ _ _ w)).
  rewrite (bind_returned _ _ _ _ _ (vcs_get_version_run _ _ _ w)).
  destruct (find_version _ _ from_version _); [|done].
  by destruct (find_version _ _ to_version _).
Qed.

(** C2, as the code has it.  [list_versions] (history) and
    [diff_versions] (diff) leave the whole world as it was for every input,
    and [resolve] is a function of the version and the role that is given
    no store.  [get_version] never changes prompts or versions, hence no
    branch head; it leaves everything unchanged when it raises or when no
    agent id (or an empty one) is sent; for a version that exists and a
    non-empty agent id the world after it is the one [_auto_subscribe]
    leaves, with the agent's subscription inserted or touched. *)
Theorem reads_leave_versions_and_heads (history_ceiling : positive) :
  (∀ slug branch limit w,
     (list_versions history_ceiling slug branch limit w).2 = w) ∧
  (∀ slug from_version to_version branch w,
     (diff_versions slug from_version to_version branch w).2 = w) ∧
  (∀ slug version branch x_agent_id now w,
     let served := get_version slug version branch x_agent_id now w in
     prompts (w_db served.2) = prompts (w_db w) ∧
     prompt_versions (w_db served.2) = prompt_versions (w_db w) ∧
     (∀ prompt_id branch',
        branch_versions (w_db served.2) prompt_id branch'
        = branch_versions (w_db w) prompt_id branch' ∧
        head_version (w_db served.2) prompt_id branch'
        = head_version (w_db w) prompt_id branch') ∧
     (x_agent_id = None ∨ x_agent_id = Some "" → served.2 = w) ∧
     (∀ e, served.1 = Raised e → served.2 = w) ∧
     (∀ ver, served.1 = Returned ver →
        served.2 = (_auto_subscribe (v_prompt_id ver) x_agent_id now w).2)).
Proof.
  split; [|split].
  - intros. apply list_versions_world.
  - intros. apply diff_versions_world.
  - intros slug version branch x_agent_id now w served.
    assert (prompts (w_db served.2) = prompts (w_db w) ∧
            prompt_versions (w_db served.2) = prompt_versions (w_db w)) as [Hp Hv].
    { subst served. rewrite get_version_run.
      destruct (head _) as [prompt|]; [|done].
      destruct (find_version _ _ _ _) as [ver|]; [|done].
      by destruct (_auto_subscribe_returns (p_id prompt) x_agent_id now w)
        as (w1 & -> & ? & ?). }
    split; [done|]. split; [done|]. split; [|split; [|split]].
    + intros p b. unfold head_version, branch_versions. by rewrite Hv.
    + subst served. rewrite get_version_run. intros Hagent.
      destruct (head _) as [prompt|]; [|done].
      destruct (find_version _ _ _ _) as [ver|]; [|done].
      by destruct Hagent as [-> | ->].
    + subst served. rewrite get_version_run. intros e.
      destruct (head _) as [prompt|]; [|done].
      by destruct (find_version _ _ _ _) as [ver|].
    + subst served. rewrite get_version_run. intros ver.
      destruct (head _) as [prompt|]; [|done].
      destruct (find_version _ _ _ _) as [found|] eqn:Hfound; [|done].
      intros [= ->]. simpl.
      by apply find_version_Some in Hfound as (_ & -> & _).
Qed.

(** * The properties at sample inputs *)

Example serve_sample_requests :
  let served := serve_commits sample_hash 100 failing_publisher sample_requests
                              (world_of sample_db_empty) in
  v_version <$> returned_on "p-1" "main" served.1 = [1; 2] ∧
  v_version <$> returned_on "p-1" "draft" served.1 = [1] ∧
  length served.1 = 5%nat ∧
  length (prompt_versions (w_db served.2)) = 3%nat.
Proof. by vm_compute. Qed.

Example resolve_sample_developer :
  resolve sample_version "developer"
  = inr (mkComposed "p-1" "main" 1 [("voice", "v1"); ("identity", "i1")]).
Proof. reflexivity. Qed.

Lemma get_sections_for_role_unknown_witness :
  ("intern" ∉ ["king"; "developer"; "reviewer"; "tester"; "security"]) ∧
  (ROLE_PROFILES !! "intern" = None ∧
   ROLE_PROFILES !! "king" = Some None ∧
   get_sections_for_role "intern" = None ∧
   get_sections_for_role "intern" = get_sections_for_role "king").
Proof.
  assert ("intern" ∉ ["king"; "developer"; "reviewer"; "tester"; "security"]) as Hrole
    by (apply (bool_decide_unpack _); vm_compute; exact I).
  exact (conj Hrole (get_sections_for_role_unknown_is_king_sentinel "intern" Hrole)).
Defined.

Lemma resolve_unknown_role_fails_witness :
  ROLE_PROFILES !! "unknown-role" = None ∧
  (resolve sample_version "unknown-role" = inl RolePolicyUnknown ∧
   (∀ profile,
      resolve sample_version "unknown-role" ≠ inr (compose_with profile sample_version))).
Proof.
  exact (conj eq_refl (resolve_unknown_role_fails "unknown-role" sample_version eq_refl)).
Defined.

Lemma sample_registered : registered sample_db "greeter" (mkPrompt "p-1" "greeter").
Proof. reflexivity. Qed.

Lemma sample_contents_nonempty : contents_nonempty sample_db.
Proof.
  intros v Hin. apply list_elem_of_singleton in Hin. by subst v.
Qed.

Lemma sample_db_gapless : gapless sample_db.
Proof.
  intros prompt_id branch. unfold branch_versions, sample_db. simpl.
  rewrite filter_cons, filter_nil. by case_decide.
Qed.

Lemma commits_numbered_witness :
  (* a commit on the sample store, whose main branch has version 1 *)
  create_version sample_hash 100 failing_publisher "greeter" sample_create "t5"
                 (world_of sample_db)
  = (Returned (committed sample_hash sample_db "p-1" (vc_content sample_create)
                         "second" "ada" "main" "t5"),
     (create_version sample_hash 100 failing_publisher "greeter" sample_create "t5"
                     (world_of sample_db)).2) ∧
  v_version (committed sample_hash sample_db "p-1" (vc_content sample_create)
                       "second" "ada" "main" "t5") = 2 ∧
  (* the sample requests served from the sample store *)
  gapless (w_db (world_of sample_db)) ∧
  v_version <$> returned_on "p-1" "main"
    (serve_commits sample_hash 100 failing_publisher sample_requests (world_of sample_db)).1
  = (λ i, head_version sample_db "p-1" "main" + Z.of_nat i)
      <$> seq 1 (length (returned_on "p-1" "main"
                           (serve_commits sample_hash 100 failing_publisher sample_requests
                                          (world_of sample_db)).1)) ∧
  (* and from a store without versions *)
  prompt_versions (w_db (world_of sample_db_empty)) = [] ∧
  v_version <$> returned_on "p-1" "main"
    (serve_commits sample_hash 100 failing_publisher sample_requests
                   (world_of sample_db_empty)).1
  = one_to (length (returned_on "p-1" "main"
                      (serve_commits sample_hash 100 failing_publisher sample_requests
                                     (world_of sample_db_empty)).1)).
Proof.
  pose proof (commits_are_numbered_head_plus_one sample_hash 100 failing_publisher)
    as (Hstep & Hfrom & Hempty).
  assert (create_version sample_hash 100 failing_publisher "greeter" sample_create "t5"
                         (world_of sample_db)
          = (Returned (committed sample_hash sample_db "p-1" (vc_content sample_create)
                                 "second" "ada" "main" "t5"),
             (create_version sample_hash 100 failing_publisher "greeter" sample_create "t5"
                             (world_of sample_db)).2)) as Hrun by reflexivity.
  split; [exact Hrun|]. split.
  - destruct (Hstep _ _ _ _ _ _ Hrun) as (prompt & Hreg & _ & _ & Hnumber & _).
    unfold registered in Hreg. injection Hreg as <-. exact Hnumber.
  - split; [exact sample_db_gapless|]. split.
    + exact (proj1 (proj2 (Hfrom sample_requests (world_of sample_db) sample_db_gapless
                                 "p-1" "main"))).
    + split; [reflexivity|].
      exact (proj1 (Hempty sample_requests (world_of sample_db_empty) eq_refl "p-1" "main")).
Defined.

Lemma notification_failure_witness :
  registered (w_db (world_of sample_db_subscribed)) "greeter" (mkPrompt "p-1" "greeter") ∧
  vcs_commit sample_hash "p-1" (vc_content sample_create) (vc_message sample_create)
             (vc_author sample_create) (vc_branch sample_create) "t5"
             (world_of sample_db_subscribed)
  = (Returned (committed sample_hash sample_db_subscribed "p-1" (vc_content sample_create)
                         "second" "ada" "main" "t5"),
     with_version (world_of sample_db_subscribed)
       (committed sample_hash sample_db_subscribed "p-1" (vc_content sample_create)
                  "second" "ada" "main" "t5")) ∧
  ∃ w2,
    create_version sample_hash 100 failing_publisher "greeter" sample_create "t5"
                   (world_of sample_db_subscribed)
    = (Returned (committed sample_hash sample_db_subscribed "p-1" (vc_content sample_create)
                           "second" "ada" "main" "t5"), w2) ∧
    w_db w2 = store_append sample_db_subscribed
                (committed sample_hash sample_db_subscribed "p-1" (vc_content sample_create)
                           "second" "ada" "main" "t5").
Proof.
  split; [reflexivity|]. split; [reflexivity|].
  exact (proj1 (notification_failure_is_contained sample_hash 100 failing_publisher
                  "greeter" sample_create "t5" (world_of sample_db_subscribed) _
                  (mkPrompt "p-1" "greeter") _ eq_refl eq_refl)).
Defined.

(** With the failing publisher the endpoint still returns version 2, and
    the log holds the warning. *)
Example create_version_with_failing_publisher :
  let served := create_version sample_hash 100 failing_publisher "greeter" sample_create "t5"
                               (world_of sample_db_subscribed) in
  v_version <$> (match served.1 with Returned v => Some v | Raised _ => None end) = Some 2 ∧
  w_log served.2 = [LogWarning "subscription.notify_failed" "nats: connection closed"] ∧
  w_published served.2 = [].
Proof. by vm_compute. Qed.

Lemma rollback_witness :
  registered (w_db (world_of sample_db)) "greeter" (mkPrompt "p-1" "greeter") ∧
  contents_nonempty (w_db (world_of sample_db)) ∧
  (∀ v, v ∈ branch_versions sample_db "p-1" "main" → v_version v ≠ 5) ∧
  find_version sample_db "p-1" 1 "main" = Some sample_version ∧
  rollback_version sample_hash "main" "greeter" (mkRollbackRequest 5 "eve") "t9"
                   (world_of sample_db)
  = (Raised (HTTPException 404 "Version 5 not found"), world_of sample_db) ∧
  ∃ version w1,
    rollback_version sample_hash "main" "greeter" (mkRollbackRequest 1 "eve") "t9"
                     (world_of sample_db) = (Returned version, w1) ∧
    prompt_versions (w_db w1) = [sample_version; version] ∧
    v_content version = sample_content ∧
    v_version version = 2.
Proof.
  assert (∀ v, v ∈ branch_versions sample_db "p-1" "main" → v_version v ≠ 5) as Hmissing
    by (by apply find_version_None).
  split; [reflexivity|]. split; [exact sample_contents_nonempty|].
  split; [exact Hmissing|]. split; [reflexivity|]. split.
  - exact (proj1 (proj2 (proj1 (rollback_not_found_or_appends_one sample_hash "main" "greeter"
                    (mkRollbackRequest 5 "eve") "t9" (world_of sample_db)
                    (mkPrompt "p-1" "greeter") sample_registered sample_contents_nonempty)
                    Hmissing))).
  - destruct (proj2 (rollback_not_found_or_appends_one sample_hash "main" "greeter"
                    (mkRollbackRequest 1 "eve") "t9" (world_of sample_db)
                    (mkPrompt "p-1" "greeter") sample_registered sample_contents_nonempty)
                    sample_version eq_refl)
      as (version & w1 & Hrun & Hversions & _ & _ & Hcontent & _ & _ & _ & Hnumber & _).
    exists version, w1. repeat split; done.
Defined.

(** C4 fails on the code: a limit of 201 is positive and above the
    ceiling of the endpoint, and the request is refused, not clamped. *)
Lemma list_versions_rejects_201 :
  0 < 201 ∧
  list_versions 1000 "greeter" None (Some 201) (world_of sample_db)
  = (Raised (RequestValidationError "limit"), world_of sample_db) ∧
  status_of (RequestValidationError "limit") = 422.
Proof. by vm_compute. Qed.

Lemma list_versions_limit_witness :
  0 < 200 ∧ 0 < 201 ∧
  list_versions 1000 "greeter" None (Some 201) (world_of sample_db)
  = (Raised (RequestValidationError "limit"), world_of sample_db) ∧
  ∃ entries,
    list_versions 1000 "greeter" None (Some 200) (world_of sample_db)
    = (Returned entries, world_of sample_db) ∧
    Z.of_nat (length entries) ≤ 200 ∧
    StronglySorted newer_first entries ∧
    entries ≡ₚ [sample_version].
Proof.
  assert (0 < 200) as H200 by done. assert (0 < 201) as H201 by done.
  assert (200 ≤ 200) as Hle by done. assert (200 < 201) as Habove by done.
  split; [exact H200|]. split; [exact H201|]. split.
  - exact (proj1 (proj1 (list_versions_limit 1000 "greeter" None 201 (world_of sample_db)
                           H201) Habove)).
  - destruct (proj2 (list_versions_limit 1000 "greeter" None 200 (world_of sample_db) H200)
                    Hle (mkPrompt "p-1" "greeter")
                    sample_registered)
      as (entries & Hrun & Hlen & Hsorted & _ & _ & Hall).
    exists entries. repeat split; [exact Hrun|exact Hlen|exact Hsorted|].
    apply Hall. by vm_compute.
Defined.

(** C2 fails on the code: a fetch of version 1 by "agent-7" inserts a
    subscription row into a table that was empty. *)
Lemma get_version_writes_a_subscription :
  prompt_subscriptions sample_db = [] ∧
  get_version "greeter" 1 None (Some "agent-7") "2024-02-01T00:00:00" (world_of sample_db)
  = (Returned sample_version,
     mkWorld (mkStore [mkPrompt "p-1" "greeter"] [sample_version]
                      [mkSubscription 1 "p-1" "agent-7" "2024-02-01T00:00:00"
                                      "2024-02-01T00:00:00"])
             [DbSelect SUBSCRIPTIONS "p-1";
              DbInsert SUBSCRIPTIONS "p-1" "agent-7" "2024-02-01T00:00:00"
                       "2024-02-01T00:00:00"]
             [] []).
Proof. by vm_compute. Qed.

Lemma reads_witness :
  (list_versions 1000 "greeter" None (Some 10) (world_of sample_db)).2 = world_of sample_db ∧
  (diff_versions "greeter" 1 1 None (world_of sample_db)).2 = world_of sample_db ∧
  (get_version "greeter" 1 None None "2024-02-01T00:00:00" (world_of sample_db)).2
  = world_of sample_db ∧
  (get_version "greeter" 9 None (Some "agent-7") "2024-02-01T00:00:00"
               (world_of sample_db)).2
  = world_of sample_db.
Proof.
  split; [|split; [|split]].
  - exact (proj1 (reads_leave_versions_and_heads 1000) "greeter" None (Some 10)
                 (world_of sample_db)).
  - exact (proj1 (proj2 (reads_leave_versions_and_heads 1000)) "greeter" 1 1 None
                 (world_of sample_db)).
  - exact (proj1 (proj2 (proj2 (proj2 (proj2 (proj2 (reads_leave_versions_and_heads 1000))
                   "greeter" 1 None None "2024-02-01T00:00:00" (world_of sample_db)))))
                 (or_introl eq_refl)).
  - exact (proj1 (proj2 (proj2 (proj2 (proj2 (proj2 (proj2 (reads_leave_versions_and_heads
                   1000)) "greeter" 9 None (Some "agent-7") "2024-02-01T00:00:00"
                   (world_of sample_db))))))
                 (HTTPException 404 "Version 9 not found") eq_refl).
Defined.

Lemma auto_subscribe_witness :
  rows_of "p-1" "agent-7" (prompt_subscriptions sample_db_subscribed)
  = [sample_subscription] ∧
  NoDup (sub_id <$> prompt_subscriptions sample_db_subscribed) ∧
  rows_of "p-1" "agent-9" (prompt_subscriptions sample_db_subscribed) = [] ∧
  _auto_subscribe "p-1" (Some "") "t2" (world_of sample_db_subscribed)
  = (Returned (), world_of sample_db_subscribed) ∧
  (∃ w1,
     _auto_subscribe "p-1" (Some "agent-7") "t2" (world_of sample_db_subscribed)
     = (Returned (), w1) ∧
     w_calls w1 = [DbSelect SUBSCRIPTIONS "p-1"; DbUpdate SUBSCRIPTIONS 1 "t2"] ∧
     prompt_subscriptions (w_db w1)
     = [mkSubscription 1 "p-1" "agent-7" "2024-01-02T00:00:00" "t2"]) ∧
  (∃ w1,
     _auto_subscribe "p-1" (Some "agent-9") "t2" (world_of sample_db_subscribed)
     = (Returned (), w1) ∧
     w_calls w1 = [DbSelect SUBSCRIPTIONS "p-1";
                   DbInsert SUBSCRIPTIONS "p-1" "agent-9" "t2" "t2"] ∧
     prompt_subscriptions (w_db w1)
     = [sample_subscription; mkSubscription 2 "p-1" "agent-9" "t2" "t2"]).
Proof.
  assert (NoDup (sub_id <$> prompt_subscriptions sample_db_subscribed)) as Hids
    by (apply (bool_decide_unpack _); vm_compute; exact I).
  assert ("agent-7" ≠ "") as H7 by done. assert ("agent-9" ≠ "") as H9 by done.
  split; [reflexivity|]. split; [exact Hids|]. split; [reflexivity|]. split; [|split].
  - exact (proj1 (auto_subscribe_upserts "p-1" (Some "") "t2"
                    (world_of sample_db_subscribed)) (or_intror eq_refl)).
  - destruct (proj1 (proj2 (auto_subscribe_upserts "p-1" (Some "agent-7") "t2"
                              (world_of sample_db_subscribed)) "agent-7" eq_refl H7)
                    sample_subscription [] eq_refl Hids)
      as (w1 & Hrun & Hcalls & Hrows & _).
    exists w1. split; [exact Hrun|]. split; [exact Hcalls|exact Hrows].
  - destruct (proj1 (proj2 (proj2 (auto_subscribe_upserts "p-1" (Some "agent-9") "t2"
                              (world_of sample_db_subscribed)) "agent-9" eq_refl H9))
                    eq_refl)
      as (w1 & Hrun & Hcalls & Hrows & _).
    exists w1. split; [exact Hrun|]. split; [exact Hcalls|exact Hrows].
Defined.

(** * Further properties of the endpoints *)

(** ** What a notification round publishes *)

Section NotifyRound.

Context (publisher : Publisher).
Context (prompt_id slug : string) (old_version new_version : Z).
Context (change_note priority : string).

Local Abbreviation event_of :=
  (notification prompt_id slug old_version new_version change_note priority).
Local Abbreviation line_of := (notified_line slug new_version).

Lemma publish_loop_cons (sub : Subscription) (rest : list Subscription) (w : World) :
  for_each (sub :: rest) (λ sub, publisher_publish publisher (event_of sub) ≫= λ _,
                                 write_log (line_of sub)) w
  = match publish_fails publisher (w_published w) (event_of sub) with
    | Some e => (Raised e, w)
    | None =>
      for_each rest (λ sub, publisher_publish publisher (event_of sub) ≫= λ _,
                            write_log (line_of sub))
               (mkWorld (w_db w) (w_calls w) (w_log w ++ [line_of sub])
                        (w_published w ++ [event_of sub]))
    end.
Proof.
  simpl. unfold mbind at 1, M_bind at 1. unfold mbind at 1, M_bind at 1.
  unfold publisher_publish.
  by destruct (publish_fails publisher (w_published w) (event_of sub)).
Qed.

(** The loop of [_notify_subscribers], from any world: it publishes to a
    prefix of the rows, logging each, and stops at the first row whose
    publish raises. *)
Lemma publish_loop_run (subs : list Subscription) (w : World) :
  ∃ n, (n ≤ length subs)%nat ∧
    let w' := mkWorld (w_db w) (w_calls w) (w_log w ++ (line_of <$> take n subs))
                      (w_published w ++ (event_of <$> take n subs)) in
    (n = length subs ∧
     for_each subs (λ sub, publisher_publish publisher (event_of sub) ≫= λ _,
                           write_log (line_of sub)) w
     = (Returned (), w')) ∨
    (∃ sub e,
       subs !! n = Some sub ∧
       publish_fails publisher (w_published w') (event_of sub) = Some e ∧
       for_each subs (λ sub, publisher_publish publisher (event_of sub) ≫= λ _,
                             write_log (line_of sub)) w
       = (Raised e, w')).
Proof.
  revert w. induction subs as [|sub rest IH]; intros w.
  - exists 0%nat. split; [done|]. left. split; [done|].
    destruct w. simpl. by rewrite !app_nil_r.
  - rewrite publish_loop_cons.
    destruct (publish_fails publisher (w_published w) (event_of sub)) as [e|] eqn:Hfail.
    + exists 0%nat. split; [simpl; lia|]. right. exists sub, e.
      simpl. rewrite !app_nil_r. split; [done|]. split; [done|]. by destruct w.
    + destruct (IH (mkWorld (w_db w) (w_calls w) (w_log w ++ [line_of sub])
                            (w_published w ++ [event_of sub])))
        as (n & Hn & Hcases).
      exists (S n). split; [simpl; lia|].
      simpl in Hcases. simpl. rewrite <- !app_assoc in Hcases. simpl in Hcases.
      destruct Hcases as [[-> Hrun]|(s & e & Hs & He & Hrun)].
      * left. by split.
      * right. exists s, e. by repeat split.
Qed.

Lemma publish_to_subscribers_connected (w : World) :
  _connected publisher = true →
  publish_to_subscribers (inr publisher) prompt_id slug old_version new_version
                         change_note priority w
  = for_each (subscribers_of (w_db w) prompt_id)
             (λ sub, publisher_publish publisher (event_of sub) ≫= λ _,
                     write_log (line_of sub))
             (mkWorld (w_db w) (w_calls w ++ [DbSelect SUBSCRIPTIONS prompt_id]) (w_log w)
                      (w_published w)).
Proof.
  intros Hconnected. unfold publish_to_subscribers.
  unfold mbind at 1, M_bind at 1, mret at 1, M_ret at 1. by rewrite Hconnected.
Qed.

(** A round with a connected publisher: one select, then events and log
    lines for a prefix of the prompt's rows, then a warning if a publish
    raised. *)
Lemma notify_connected_run (w : World) :
  _connected publisher = true →
  ∃ n, (n ≤ length (subscribers_of (w_db w) prompt_id))%nat ∧
    let reached := take n (subscribers_of (w_db w) prompt_id) in
    (n = length (subscribers_of (w_db w) prompt_id) ∧
     _notify_subscribers (inr publisher) prompt_id slug old_version new_version
                         change_note priority w
     = (Returned (),
        after_notifying w prompt_id (event_of <$> reached) (line_of <$> reached))) ∨
    (∃ sub e,
       subscribers_of (w_db w) prompt_id !! n = Some sub ∧
       publish_fails publisher (w_published w ++ (event_of <$> reached)) (event_of sub)
       = Some e ∧
       _notify_subscribers (inr publisher) prompt_id slug old_version new_version
                           change_note priority w
       = (Returned (),
          after_notifying w prompt_id (event_of <$> reached)
            ((line_of <$> reached)
             ++ [LogWarning "subscription.notify_failed" (exn_str e)]))).
Proof.
  intros Hconnected.
  destruct (publish_loop_run (subscribers_of (w_db w) prompt_id)
              (mkWorld (w_db w) (w_calls w ++ [DbSelect SUBSCRIPTIONS prompt_id]) (w_log w)
                       (w_published w)))
    as (n & Hn & Hcases).
  exists n. split; [done|]. simpl in Hcases. cbv zeta.
  destruct Hcases as [[Hall Hrun]|(sub & e & Hsub & Hfail & Hrun)].
  - left. split; [done|].
    apply notify_passed. by rewrite publish_to_subscribers_connected.
  - right. exists sub, e. split; [done|]. split; [done|].
    rewrite <- publish_to_subscribers_connected in Hrun by done.
    rewrite (notify_caught _ _ _ _ _ _ _ _ _ _ Hrun).
    unfold after_notifying. simpl. by rewrite app_assoc.
Qed.

(** With a publisher that never raises every row of the prompt is reached. *)
Lemma notify_all_delivered (w : World) :
  _connected publisher = true → never_fails publisher →
  _notify_subscribers (inr publisher) prompt_id slug old_version new_version
                      change_note priority w
  = (Returned (),
     after_notifying w prompt_id (event_of <$> subscribers_of (w_db w) prompt_id)
                     (line_of <$> subscribers_of (w_db w) prompt_id)).
Proof.
  intros Hconnected Hnever.
  destruct (notify_connected_run w Hconnected)
    as (n & Hn & [[-> Hrun]|(sub & e & _ & Hfail & _)]).
  - by rewrite firstn_all in Hrun.
  - by rewrite Hnever in Hfail.
Qed.

End NotifyRound.

Section NotifyFacts.

Context (prompt_id slug : string) (old_version new_version : Z).
Context (change_note priority : string).

Local Abbreviation event_of :=
  (notification prompt_id slug old_version new_version change_note priority).
Local Abbreviation line_of := (notified_line slug new_version).

Lemma notify_import_failed (e : Exn) (w : World) :
  _notify_subscribers (inl e) prompt_id slug old_version new_version change_note priority w
  = (Returned (),
     mkWorld (w_db w) (w_calls w)
             (w_log w ++ [LogWarning "subscription.notify_failed" (exn_str e)])
             (w_published w)).
Proof. reflexivity. Qed.

Lemma notify_disconnected (publisher : Publisher) (w : World) :
  _connected publisher = false →
  _notify_subscribers (inr publisher) prompt_id slug old_version new_version
                      change_note priority w
  = (Returned (), w).
Proof.
  intros Hconnected. apply notify_passed. unfold publish_to_subscribers.
  unfold mbind, M_bind, mret, M_ret. by rewrite Hconnected.
Qed.

(** Whatever the publisher does, a round adds to the published events the
    events of a prefix of the prompt's rows, and nothing else. *)
Lemma notify_published (get_event_publisher : Exn + Publisher) (w : World) :
  ∃ n w1,
    _notify_subscribers get_event_publisher prompt_id slug old_version new_version
                        change_note priority w = (Returned (), w1) ∧
    w_db w1 = w_db w ∧
    w_published w1
    = w_published w ++ (event_of <$> take n (subscribers_of (w_db w) prompt_id)).
Proof.
  destruct get_event_publisher as [e|publisher].
  - exists 0%nat. eexists. split; [apply notify_import_failed|].
    simpl. by rewrite app_nil_r.
  - destruct (_connected publisher) eqn:Hconnected.
    + destruct (notify_connected_run publisher prompt_id slug old_version new_version
                  change_note priority w Hconnected)
        as (n & _ & [[_ Hrun]|(sub & e & _ & _ & Hrun)]);
        exists n; eexists; (split; [exact Hrun|done]).
    + exists 0%nat, w. split; [by apply notify_disconnected|].
      simpl. by rewrite app_nil_r.
Qed.

(** X1. A notification round with a connected publisher makes one select
    for the prompt and then walks the prompt's subscription rows in table
    order: it publishes and logs for a prefix of them and stops at the first
    row whose publish raises, logging one warning; the rows after it get no
    event.  Rows of other prompts are never reached.  With a publisher that
    never raises the prefix is the whole list and no warning is logged. *)
Theorem notify_round_reaches_a_prefix (publisher : Publisher) (w : World) :
  _connected publisher = true →
  (∃ n, (n ≤ length (subscribers_of (w_db w) prompt_id))%nat ∧
     let reached := take n (subscribers_of (w_db w) prompt_id) in
     (n = length (subscribers_of (w_db w) prompt_id) ∧
      _notify_subscribers (inr publisher) prompt_id slug old_version new_version
                          change_note priority w
      = (Returned (),
         after_notifying w prompt_id (event_of <$> reached) (line_of <$> reached))) ∨
     (∃ sub e,
        subscribers_of (w_db w) prompt_id !! n = Some sub ∧
        publish_fails publisher (w_published w ++ (event_of <$> reached)) (event_of sub)
        = Some e ∧
        _notify_subscribers (inr publisher) prompt_id slug old_version new_version
                            change_note priority w
        = (Returned (),
           after_notifying w prompt_id (event_of <$> reached)
             ((line_of <$> reached)
              ++ [LogWarning "subscription.notify_failed" (exn_str e)])))) ∧
  (∀ sub, sub ∈ subscribers_of (w_db w) prompt_id
          ↔ sub ∈ prompt_subscriptions (w_db w) ∧ sub_prompt_id sub = prompt_id) ∧
  (never_fails publisher →
   _notify_subscribers (inr publisher) prompt_id slug old_version new_version
                       change_note priority w
   = (Returned (),
      after_notifying w prompt_id (event_of <$> subscribers_of (w_db w) prompt_id)
                      (line_of <$> subscribers_of (w_db w) prompt_id))).
Proof.
  intros Hconnected. split; [by apply notify_connected_run|]. split.
  - intros sub. unfold subscribers_of. rewrite list_elem_of_filter.
    split; intros [? ?]; by split.
  - intros Hnever. by apply notify_all_delivered.
Qed.

(** X2. Without a usable publisher nothing is sent and the store is not
    even read: when the publisher is not connected, the round leaves the
    world exactly as it was (no select, no event, no log line); when
    [get_event_publisher] raises, the round only logs the
    "subscription.notify_failed" warning with the exception's text, which is
    the message of an exception built from a message and
    "<status_code>: <detail>" for an [HTTPException]. *)
Theorem notify_skipped_without_publisher (publisher : Publisher) (w : World) :
  _connected publisher = false →
  _notify_subscribers (inr publisher) prompt_id slug old_version new_version
                      change_note priority w
  = (Returned (), w) ∧
  (∀ msg,
     _notify_subscribers (inl (Exception msg)) prompt_id slug old_version new_version
                         change_note priority w
     = (Returned (),
        mkWorld (w_db w) (w_calls w)
                (w_log w ++ [LogWarning "subscription.notify_failed" msg])
                (w_published w))) ∧
  (∀ status_code detail,
     _notify_subscribers (inl (HTTPException status_code detail)) prompt_id slug
                         old_version new_version change_note priority w
     = (Returned (),
        mkWorld (w_db w) (w_calls w)
                (w_log w ++ [LogWarning "subscription.notify_failed"
                                        (pretty status_code +:+ ": " +:+ detail)])
                (w_published w))).
Proof.
  intros Hconnected. split; [by apply notify_disconnected|].
  split; intros; apply notify_import_failed.
Qed.

End NotifyFacts.

(** ** What a commit request publishes *)

Lemma priority_of_not_empty (data : VersionCreate) : priority_of data ≠ "".
Proof.
  unfold priority_of. destruct (vc_priority data) as [p|]; [|done].
  by case_decide.
Qed.

Lemma store_append_subscribers (db : Store) (v : Version) (prompt_id : string) :
  subscribers_of (store_append db v) prompt_id = subscribers_of db prompt_id.
Proof. reflexivity. Qed.

Section CommitEvents.

Context (content_hash : Content → string) (history_ceiling : positive).
Context (get_event_publisher : Exn + Publisher).

(** A commit request that succeeds: the version is the committed row and
    the events added are those of a prefix of the prompt's rows. *)
Lemma create_version_published (slug : string) (data : VersionCreate) (now : string)
    (w w1 : World) (version : Version) :
  create_version content_hash history_ceiling get_event_publisher slug data now w
  = (Returned version, w1) →
  ∃ prompt n,
    registered (w_db w) slug prompt ∧
    v_prompt_id version = p_id prompt ∧
    w_db w1 = store_append (w_db w) version ∧
    w_published w1
    = w_published w
      ++ (notification (p_id prompt) slug
            (observed_head history_ceiling (w_db w) (p_id prompt) (vc_branch data))
            (v_version version) (vc_message data) (priority_of data)
          <$> take n (subscribers_of (w_db w) (p_id prompt))).
Proof.
  intros Hserved.
  destruct (head (filter (λ p, p_slug p = slug) (prompts (w_db w)))) as [prompt|] eqn:Hreg.
  - rewrite (create_version_registered _ _ _ _ _ _ _ _ Hreg) in Hserved.
    destruct (vcs_commit content_hash (p_id prompt) (vc_content data) (vc_message data)
                (vc_author data) (vc_branch data) now w) as [[v|e] w0] eqn:Hcommit.
    + rewrite (bind_returned _ _ _ _ _ Hcommit) in Hserved.
      destruct (notify_published (p_id prompt) slug
                  (observed_head history_ceiling (w_db w) (p_id prompt) (vc_branch data))
                  (v_version v) (vc_message data) (priority_of data)
                  get_event_publisher w0) as (n & w2 & Hnotify & Hdb & Hpublished).
      rewrite (bind_returned _ _ _ _ _ Hnotify) in Hserved.
      injection Hserved as <- <-.
      apply vcs_commit_returned in Hcommit as (_ & Hv & ->).
      exists prompt, n. split; [done|]. split; [by rewrite Hv|]. split; [done|].
      by rewrite Hpublished.
    + by rewrite (bind_raised _ _ _ _ _ Hcommit) in Hserved.
  - by rewrite create_version_unregistered in Hserved.
Qed.

(** X3. Every event a commit request publishes describes that commit:
    type "prompt.updated", the request's slug, the prompt's id, the number
    of the Version returned as new version, the request's message as change
    note, and a priority that is never empty ("normal" when the request has
    none or an empty one); its subject is that of an agent with a
    subscription row for this prompt.  A request answered with an error
    publishes nothing, logs nothing and makes no call on the store. *)
Theorem create_version_events_describe_the_commit (slug : string) (data : VersionCreate)
    (now : string) (w : World) :
  let served :=
    create_version content_hash history_ceiling get_event_publisher slug data now w in
  match served.1 with
  | Raised _ =>
    w_published served.2 = w_published w ∧ w_log served.2 = w_log w ∧
    w_calls served.2 = w_calls w
  | Returned version =>
    ∃ events,
      w_published served.2 = w_published w ++ events ∧
      ∀ ev, ev ∈ events →
        ev_type ev = "prompt.updated" ∧
        ev_slug ev = slug ∧
        ev_prompt_id ev = v_prompt_id version ∧
        ev_new_version ev = v_version version ∧
        ev_change_note ev = vc_message data ∧
        ev_priority ev = priority_of data ∧
        (ev_priority ev = "normal" ∨
         vc_priority data = Some (ev_priority ev) ∧ ev_priority ev ≠ "") ∧
        ∃ sub, sub ∈ prompt_subscriptions (w_db w) ∧
               sub_prompt_id sub = v_prompt_id version ∧
               ev_subject ev = subject_of (sub_agent_id sub)
  end.
Proof.
  intros served.
  destruct served as [[version|e] w1] eqn:Hserved; subst served; simpl.
  - apply create_version_published in Hserved
      as (prompt & n & _ & Hprompt & _ & Hpublished).
    eexists. split; [exact Hpublished|].
    intros ev (sub & -> & Hsub)%list_elem_of_fmap. simpl.
    do 6 (split; [done|]). split.
    + unfold priority_of. destruct (vc_priority data) as [p|]; [|by left].
      case_decide; [by left|by right].
    + exists sub. rewrite Hprompt.
      assert (sub ∈ subscribers_of (w_db w) (p_id prompt)) as Hin.
      { rewrite <- (take_drop n (subscribers_of (w_db w) (p_id prompt))).
        apply elem_of_app. by left. }
      unfold subscribers_of in Hin. apply list_elem_of_filter in Hin as [? ?]. done.
  - apply create_version_outcome in Hserved as [(e' & _ & ->)|(? & _ & _ & [=] & _)].
    done.
Qed.

End CommitEvents.

(** ** Subscriptions kept by fetches *)

Lemma touch_key (id : Z) (now : string) (r : Subscription) :
  subscription_key (touch id now r) = subscription_key r.
Proof. unfold touch. by case_decide. Qed.

Lemma rows_of_fmap_touch (prompt_id agent_id : string) (id : Z) (now : string)
    (rows : list Subscription) :
  rows_of prompt_id agent_id (touch id now <$> rows)
  = touch id now <$> rows_of prompt_id agent_id rows.
Proof.
  unfold rows_of. induction rows as [|r rows IH]; [done|].
  rewrite fmap_cons, !filter_cons.
  destruct (touch_prompt_agent id now r) as (-> & Hagent & _).
  case_decide; [|done]. rewrite !filter_cons, Hagent.
  case_decide; [|done]. rewrite fmap_cons. by f_equal.
Qed.

Lemma rows_of_nil_key (prompt_id agent_id : string) (rows : list Subscription) :
  rows_of prompt_id agent_id rows = [] →
  (prompt_id, agent_id) ∉ (subscription_key <$> rows).
Proof.
  intros Hnone (r & Hkey & Hin)%list_elem_of_fmap.
  unfold subscription_key in Hkey. injection Hkey as -> ->.
  assert (r ∈ rows_of (sub_prompt_id r) (sub_agent_id r) rows) as Hr.
  { unfold rows_of. rewrite !list_elem_of_filter. done. }
  rewrite Hnone in Hr. by apply elem_of_nil in Hr.
Qed.

Lemma subscriptions_unique_touch (id : Z) (now : string) (rows : list Subscription) :
  subscriptions_unique rows → subscriptions_unique (touch id now <$> rows).
Proof.
  intros [Hids Hkeys]. split.
  - rewrite <- list_fmap_compose.
    by rewrite (list_fmap_ext _ sub_id rows) by (intros; apply touch_id).
  - rewrite <- list_fmap_compose.
    by rewrite (list_fmap_ext _ subscription_key rows) by (intros; apply touch_key).
Qed.

Lemma subscriptions_unique_insert (prompt_id agent_id subscribed_at last_pulled_at : string)
    (rows : list Subscription) :
  subscriptions_unique rows →
  rows_of prompt_id agent_id rows = [] →
  subscriptions_unique
    (rows ++ [mkSubscription (fresh_id rows) prompt_id agent_id subscribed_at
                             last_pulled_at]).
Proof.
  intros [Hids Hkeys] Hnone. split; rewrite fmap_app; apply NoDup_app.
  - split; [done|]. split; [|apply NoDup_singleton].
    intros id Hid ->%list_elem_of_singleton. by apply (fresh_id_fresh rows).
  - split; [done|]. split; [|apply NoDup_singleton].
    intros key Hkey ->%list_elem_of_singleton.
    by apply (rows_of_nil_key prompt_id agent_id rows).
Qed.

Lemma _auto_subscribe_unique (prompt_id : string) (agent_id : option string) (now : string)
    (w : World) :
  subscriptions_unique (prompt_subscriptions (w_db w)) →
  subscriptions_unique
    (prompt_subscriptions (w_db (_auto_subscribe prompt_id agent_id now w).2)).
Proof.
  intros Hunique. destruct agent_id as [agent|]; [|done].
  destruct (decide (agent = "")) as [->|Hagent]; [done|].
  rewrite _auto_subscribe_run by done.
  destruct (rows_of prompt_id agent (prompt_subscriptions (w_db w))) as [|r rest] eqn:Hrows.
  - simpl. by apply subscriptions_unique_insert.
  - simpl. by apply subscriptions_unique_touch.
Qed.

(** X4. Fetching never duplicates a subscription: if the row ids are
    distinct and no (prompt, agent) pair has two rows, then the same holds
    after [get_version], for every request and whatever its outcome. *)
Theorem get_version_keeps_subscriptions_unique (slug : string) (version : Z)
    (branch x_agent_id : option string) (now : string) (w : World) :
  subscriptions_unique (prompt_subscriptions (w_db w)) →
  subscriptions_unique
    (prompt_subscriptions (w_db (get_version slug version branch x_agent_id now w).2)).
Proof.
  intros Hunique. rewrite get_version_run.
  destruct (head _) as [prompt|]; [|done].
  destruct (find_version _ _ _ _) as [ver|]; [|done].
  by apply _auto_subscribe_unique.
Qed.

Lemma _auto_subscribe_first_row (prompt_id agent now : string) (w : World) :
  agent ≠ "" →
  ∃ r rest,
    rows_of prompt_id agent
            (prompt_subscriptions (w_db (_auto_subscribe prompt_id (Some agent) now w).2))
    = r :: rest ∧
    sub_last_pulled_at r = now ∧
    (rows_of prompt_id agent (prompt_subscriptions (w_db w)) = [] →
     sub_subscribed_at r = now ∧ rest = []).
Proof.
  intros Hagent. rewrite _auto_subscribe_run by done.
  destruct (rows_of prompt_id agent (prompt_subscriptions (w_db w))) as [|r rest] eqn:Hrows.
  - simpl. rewrite rows_of_app, Hrows. unfold rows_of. simpl.
    rewrite filter_cons, decide_True by done. rewrite filter_cons, decide_True by done.
    by eexists _, _.
  - simpl. rewrite rows_of_fmap_touch, Hrows, fmap_cons.
    eexists _, _. split; [done|]. split; [|done].
    unfold touch. by rewrite decide_True.
Qed.

Lemma _auto_subscribe_old_rows (prompt_id : string) (agent_id : option string) (now : string)
    (w : World) :
  let rows := prompt_subscriptions (w_db w) in
  let rows' := prompt_subscriptions (w_db (_auto_subscribe prompt_id agent_id now w).2) in
  sub_id <$> take (length rows) rows' = sub_id <$> rows ∧
  subscription_key <$> take (length rows) rows' = subscription_key <$> rows ∧
  sub_subscribed_at <$> take (length rows) rows' = sub_subscribed_at <$> rows.
Proof.
  cbv zeta. destruct agent_id as [agent|]; [|by rewrite firstn_all].
  destruct (decide (agent = "")) as [->|Hagent]; [by rewrite firstn_all|].
  rewrite _auto_subscribe_run by done.
  destruct (rows_of prompt_id agent (prompt_subscriptions (w_db w))) as [|r rest]; simpl.
  - by rewrite take_app_length.
  - rewrite <- (length_fmap (touch (sub_id r) now)), firstn_all, <- !list_fmap_compose.
    repeat split; apply list_fmap_ext; intros i x _; simpl.
    + apply touch_id.
    + apply touch_key.
    + apply touch_prompt_agent.
Qed.

(** X5. A fetch records itself: after [get_version] returns a version to
    a non-empty agent id, the first subscription row of that agent for the
    version's prompt has [last_pulled_at] equal to the clock reading of the
    fetch (and, if the agent had no row, it is the only one and was
    subscribed at that reading); the rows that were there before keep their
    place, id, prompt, agent and [subscribed_at]. *)
Theorem get_version_records_the_fetch (slug : string) (version : Z) (branch : option string)
    (agent now : string) (w w1 : World) (ver : Version) :
  agent ≠ "" →
  get_version slug version branch (Some agent) now w = (Returned ver, w1) →
  (∃ r rest,
     rows_of (v_prompt_id ver) agent (prompt_subscriptions (w_db w1)) = r :: rest ∧
     sub_last_pulled_at r = now ∧
     (rows_of (v_prompt_id ver) agent (prompt_subscriptions (w_db w)) = [] →
      sub_subscribed_at r = now ∧ rest = [])) ∧
  sub_id <$> take (length (prompt_subscriptions (w_db w))) (prompt_subscriptions (w_db w1))
  = sub_id <$> prompt_subscriptions (w_db w) ∧
  subscription_key
    <$> take (length (prompt_subscriptions (w_db w))) (prompt_subscriptions (w_db w1))
  = subscription_key <$> prompt_subscriptions (w_db w) ∧
  sub_subscribed_at
    <$> take (length (prompt_subscriptions (w_db w))) (prompt_subscriptions (w_db w1))
  = sub_subscribed_at <$> prompt_subscriptions (w_db w).
Proof.
  intros Hagent. rewrite get_version_run.
  destruct (head _) as [prompt|]; [|done].
  destruct (find_version _ _ _ _) as [found|] eqn:Hfound; [|done].
  intros Hrun. injection Hrun as -> <-.
  apply find_version_Some in Hfound as (_ & -> & _).
  split; [by apply _auto_subscribe_first_row|].
  apply (_auto_subscribe_old_rows (p_id prompt) (Some agent) now w).
Qed.

(** ** From a fetch to the next notification *)

Lemma rows_of_subscribers (prompt_id agent : string) (db : Store) (r : Subscription) :
  r ∈ rows_of prompt_id agent (prompt_subscriptions db) →
  r ∈ subscribers_of db prompt_id ∧ sub_agent_id r = agent.
Proof.
  unfold rows_of, subscribers_of. rewrite list_elem_of_filter. by intros [? ?].
Qed.

(** X6. An agent that fetched a version is told about the next commit:
    after [get_version] has returned a version of a prompt to a non-empty
    agent id, a commit request for the same slug with a non-empty content,
    served with a connected publisher that does not raise, returns the new
    Version and has published the "prompt.updated" event addressed to that
    agent, carrying the new version number. *)
Theorem fetch_then_commit_notifies_the_agent (content_hash : Content → string)
    (history_ceiling : positive) (publisher : Publisher)
    (slug : string) (version : Z) (branch : option string) (agent now : string)
    (data : VersionCreate) (later : string) (w w1 : World) (ver : Version) :
  _connected publisher = true →
  never_fails publisher →
  agent ≠ "" →
  vc_content data ≠ [] →
  get_version slug version branch (Some agent) now w = (Returned ver, w1) →
  ∃ new w2,
    create_version content_hash history_ceiling (inr publisher) slug data later w1
    = (Returned new, w2) ∧
    v_prompt_id new = v_prompt_id ver ∧
    mkEvent "prompt.updated" (subject_of agent) slug (v_prompt_id ver)
            (observed_head history_ceiling (w_db w1) (v_prompt_id ver) (vc_branch data))
            (v_version new) (vc_message data) (priority_of data)
    ∈ w_published w2.
Proof.
  intros Hconnected Hnever Hagent Hcontent. rewrite get_version_run.
  destruct (head _) as [prompt|] eqn:Hreg; [|done].
  destruct (find_version _ _ _ _) as [found|] eqn:Hfound; [|done].
  destruct (_auto_subscribe_returns (p_id prompt) (Some agent) now w)
    as (w' & Hsub & Hprompts & _).
  destruct (_auto_subscribe_first_row (p_id prompt) agent now w Hagent)
    as (r & rest & Hrows & _).
  rewrite Hsub in Hrows. rewrite Hsub. cbn [snd] in *.
  intros Hrun. injection Hrun as -> ->.
  apply find_version_Some in Hfound as (_ & -> & _).
  assert (registered (w_db w1) slug prompt) as Hreg1
    by (unfold registered; by rewrite Hprompts).
  assert (r ∈ subscribers_of (w_db w1) (p_id prompt) ∧ sub_agent_id r = agent) as [Hr <-].
  { apply rows_of_subscribers. rewrite Hrows. left. }
  rewrite (create_version_registered _ _ _ _ _ _ _ _ Hreg1).
  unfold mbind at 1, M_bind at 1. rewrite vcs_commit_run.
  destruct (vc_content data) as [|section sections] eqn:Hdata; [done|]. cbv zeta.
  unfold mbind at 1, M_bind at 1.
  rewrite notify_all_delivered by done.
  eexists _, _. split; [reflexivity|]. split; [done|].
  simpl. apply elem_of_app. right.
  by apply (list_elem_of_fmap_2
              (notification (p_id prompt) slug _ _ (vc_message data) (priority_of data))).
Qed.

(** ** Subjects *)

Lemma string_length_append (s t : string) :
  String.length (s +:+ t) = (String.length s + String.length t)%nat.
Proof. induction s as [|c s IH]; simpl; [done|]. by rewrite IH. Qed.

Lemma string_append_cancel_r (s1 s2 t : string) : s1 +:+ t = s2 +:+ t → s1 = s2.
Proof.
  revert s2. induction s1 as [|c s1 IH]; intros [|d s2] Heq.
  - done.
  - apply (f_equal String.length) in Heq.
    rewrite (string_length_append "" t), (string_length_append (String d s2) t) in Heq.
    simpl in Heq. lia.
  - apply (f_equal String.length) in Heq.
    rewrite (string_length_append "" t), (string_length_append (String c s1) t) in Heq.
    simpl in Heq. lia.
  - injection Heq as -> Heq. f_equal. by apply IH.
Qed.

(** X7. Subjects are addressed per agent: two agent ids get the same
    subject only if they are the same id, so an event published for one
    agent is never addressed to another. *)
Theorem subject_of_identifies_the_agent (agent_a agent_b : string) :
  subject_of agent_a = subject_of agent_b ↔ agent_a = agent_b.
Proof.
  split.
  - unfold subject_of. intros Heq.
    apply (inj (String.append "swarm.forge.agent.")) in Heq.
    by apply string_append_cancel_r in Heq.
  - by intros ->.
Qed.

(** ** Rollbacks are silent *)

Section RollbackSilent.

Context (content_hash : Content → string) (rollback_branch : string).

Lemma rollback_version_run (slug : string) (data : RollbackRequest) (now : string)
    (w : World) :
  rollback_version content_hash rollback_branch slug data now w
  = match head (filter (λ p, p_slug p = slug) (prompts (w_db w))) with
    | None => (Raised (HTTPException 404 ("Prompt '" +:+ slug +:+ "' not found")), w)
    | Some prompt =>
      match find_version (w_db w) (p_id prompt) (rb_version data) rollback_branch with
      | None =>
        (Raised (HTTPException 404
                   ("Version " +:+ pretty (rb_version data) +:+ " not found")), w)
      | Some target =>
        match v_content target with
        | [] => (Raised (CoreFailure InvalidContent), w)
        | _ =>
          let version :=
            committed content_hash (w_db w) (p_id prompt) (v_content target)
                      ("Rollback to version " +:+ pretty (rb_version data))
                      (rb_author data) rollback_branch now in
          (Returned version, with_version w version)
        end
      end
    end.
Proof.
  destruct (head (filter (λ p, p_slug p = slug) (prompts (w_db w)))) as [prompt|] eqn:Hreg.
  - rewrite (rollback_version_registered _ _ _ _ _ _ _ Hreg).
    unfold mbind at 1, M_bind at 1. rewrite vcs_rollback_run.
    destruct (find_version _ _ _ _) as [target|]; [|done].
    unfold mbind at 1, M_bind at 1. rewrite vcs_commit_run.
    by destruct (v_content target).
  - unfold rollback_version.
    rewrite (bind_returned _ _ _ _ _ (registry_get_prompt_run slug w)).
    by rewrite Hreg.
Qed.

(** X8. Unlike a commit, a rollback tells nobody: for every request and
    outcome, [rollback_version] publishes no event, writes no log line,
    makes no call on the subscription table, and leaves prompts and
    subscriptions as they were; the only thing it can change is the list of
    versions, which it changes if and only if it returns a Version. *)
Theorem rollback_version_notifies_nobody (slug : string) (data : RollbackRequest)
    (now : string) (w : World) :
  let served := rollback_version content_hash rollback_branch slug data now w in
  w_published served.2 = w_published w ∧
  w_log served.2 = w_log w ∧
  w_calls served.2 = w_calls w ∧
  prompts (w_db served.2) = prompts (w_db w) ∧
  prompt_subscriptions (w_db served.2) = prompt_subscriptions (w_db w) ∧
  match served.1 with
  | Returned version => prompt_versions (w_db served.2) = prompt_versions (w_db w) ++ [version]
  | Raised _ => served.2 = w
  end.
Proof.
  cbv zeta. rewrite rollback_version_run.
  destruct (head _) as [prompt|]; [|done].
  destruct (find_version _ _ _ _) as [target|]; [|done].
  by destruct (v_content target).
Qed.

End RollbackSilent.

(** ** Error answers *)

Section ErrorAnswers.

Context (content_hash : Content → string) (history_ceiling : positive).
Context (rollback_branch : string) (get_event_publisher : Exn + Publisher).

Lemma list_versions_run (slug : string) (branch : option string) (limit : option Z)
    (w : World) :
  list_versions history_ceiling slug branch limit w
  = if decide (default LIMIT_DEFAULT limit ≤ LIMIT_LE) then
      match head (filter (λ p, p_slug p = slug) (prompts (w_db w))) with
      | None => (Raised (HTTPException 404 ("Prompt '" +:+ slug +:+ "' not found")), w)
      | Some prompt =>
        vcs_history history_ceiling (p_id prompt) (default "main" branch)
                    (default LIMIT_DEFAULT limit) w
      end
    else (Raised (RequestValidationError "limit"), w).
Proof.
  unfold list_versions. cbv zeta. case_decide; [|done].
  rewrite (bind_returned _ _ _ _ _ (registry_get_prompt_run slug w)).
  by destruct (head _).
Qed.

Lemma diff_versions_run (slug : string) (from_version to_version : Z)
    (branch : option string) (w : World) :
  diff_versions slug from_version to_version branch w
  = match head (filter (λ p, p_slug p = slug) (prompts (w_db w))) with
    | None => (Raised (HTTPException 404 ("Prompt '" +:+ slug +:+ "' not found")), w)
    | Some prompt =>
      match find_version (w_db w) (p_id prompt) from_version (default "main" branch),
            find_version (w_db w) (p_id prompt) to_version (default "main" branch) with
      | Some v_from, Some v_to =>
        (Returned (mkDiffResponse (p_id prompt) from_version to_version
                     (differ_diff (v_content v_from) (v_content v_to)).1
                     (differ_diff (v_content v_from) (v_content v_to)).2), w)
      | _, _ => (Raised (HTTPException 404 "One or both versions not found"), w)
      end
    end.
Proof.
  unfold diff_versions. cbv zeta.
  rewrite (bind_returned _ _ _ _ _ (registry_get_prompt_run slug w)).
  destruct (head _) as [prompt|]; [|done].
  rewrite (bind_returned _ _ _ _ _ (vcs_get_version_run _ _ _ w)).
  rewrite (bind_returned _ _ _ _ _ (vcs_get_version_run _ _ _ w)).
  destruct (find_version _ _ from_version _); [|done].
  by destruct (find_version _ _ to_version _).
Qed.

(** X9. A slug that is not registered is answered with 404 "Prompt
    '<slug>' not found" by all five endpoints, and the world is left exactly
    as it was: nothing is stored, subscribed, published or logged.  (For
    [list_versions] this is the answer once the limit has passed its
    check.) *)
Theorem unknown_slug_is_404_everywhere (slug : string) (w : World) :
  head (filter (λ p, p_slug p = slug) (prompts (w_db w))) = None →
  status_of (HTTPException 404 ("Prompt '" +:+ slug +:+ "' not found")) = 404 ∧
  (∀ data now,
     create_version content_hash history_ceiling get_event_publisher slug data now w
     = (Raised (HTTPException 404 ("Prompt '" +:+ slug +:+ "' not found")), w)) ∧
  (∀ branch limit,
     default 50 limit ≤ 200 →
     list_versions history_ceiling slug branch limit w
     = (Raised (HTTPException 404 ("Prompt '" +:+ slug +:+ "' not found")), w)) ∧
  (∀ version branch x_agent_id now,
     get_version slug version branch x_agent_id now w
     = (Raised (HTTPException 404 ("Prompt '" +:+ slug +:+ "' not found")), w)) ∧
  (∀ from_version to_version branch,
     diff_versions slug from_version to_version branch w
     = (Raised (HTTPException 404 ("Prompt '" +:+ slug +:+ "' not found")), w)) ∧
  (∀ data now,
     rollback_version content_hash rollback_branch slug data now w
     = (Raised (HTTPException 404 ("Prompt '" +:+ slug +:+ "' not found")), w)).
Proof.
  intros Hnone. split; [done|]. split; [|split; [|split; [|split]]].
  - intros. by apply create_version_unregistered.
  - intros branch limit Hlimit. rewrite list_versions_run, Hnone.
    by rewrite decide_True.
  - intros. by rewrite get_version_run, Hnone.
  - intros. by rewrite diff_versions_run, Hnone.
  - intros. by rewrite rollback_version_run, Hnone.
Qed.

(** X10. [list_versions] checks its limit from above only, and before it
    looks at the slug: a limit above 200 is answered with the validation
    error whether or not the slug is registered, while any limit up to 200,
    zero and negative ones included, passes the check; for a registered slug
    it is then handed unchanged to [vcs.history], whose result is the
    answer, and for a slug that is not registered the answer is the 404.  An
    omitted limit behaves as 50 and an omitted branch as "main". *)
Theorem list_versions_checks_only_the_upper_bound (slug : string)
    (branch : option string) (w : World) :
  (∀ limit, 200 < limit →
     list_versions history_ceiling slug branch (Some limit) w
     = (Raised (RequestValidationError "limit"), w)) ∧
  (∀ limit prompt, limit ≤ 200 → registered (w_db w) slug prompt →
     list_versions history_ceiling slug branch (Some limit) w
     = vcs_history history_ceiling (p_id prompt) (default "main" branch) limit w) ∧
  (∀ limit, limit ≤ 200 →
     head (filter (λ p, p_slug p = slug) (prompts (w_db w))) = None →
     list_versions history_ceiling slug branch (Some limit) w
     = (Raised (HTTPException 404 ("Prompt '" +:+ slug +:+ "' not found")), w)) ∧
  list_versions history_ceiling slug branch None w
  = list_versions history_ceiling slug branch (Some 50) w ∧
  (∀ limit,
     list_versions history_ceiling slug None limit w
     = list_versions history_ceiling slug (Some "main") limit w).
Proof.
  split; [|split; [|split; [|split]]].
  - intros limit Hlimit. rewrite list_versions_run. simpl.
    rewrite decide_False; [done|]. unfold LIMIT_LE. lia.
  - intros limit prompt Hlimit Hreg. rewrite list_versions_run. simpl.
    rewrite decide_True by done. unfold registered in Hreg. by rewrite Hreg.
  - intros limit Hlimit Hnone. rewrite list_versions_run. simpl.
    rewrite decide_True by done. by rewrite Hnone.
  - by rewrite !list_versions_run.
  - intros limit. by rewrite !list_versions_run.
Qed.


End ErrorAnswers.

(** ** The range of the role lookup *)

Lemma known_role_cases (role : string) :
  role ∈ known_roles →
  role = "king" ∨ role = "developer" ∨ role = "reviewer" ∨ role = "tester"
  ∨ role = "security".
Proof. unfold known_roles. rewrite !elem_of_cons, elem_of_nil. tauto. Qed.

Lemma get_sections_for_role_range (role : string) (keys : list string) :
  get_sections_for_role role = Some keys →
  role = "developer"
  ∧ keys = ["voice"; "identity"; "boundaries"; "thinking_mode"; "anti_patterns";
            "communication_rules"]
  ∨ (role = "reviewer" ∨ role = "tester" ∨ role = "security")
    ∧ keys = ["voice"; "identity"; "boundaries"; "communication_rules"].
Proof.
  intros Hkeys. destruct (decide (role ∈ known_roles)) as [Hknown|Hunknown].
  - apply known_role_cases in Hknown as [->|[->|[->|[->| ->]]]].
    + discriminate Hkeys.
    + left. split; [done|]. rewrite get_sections_for_role_developer in Hkeys.
      by injection Hkeys.
    + right. split; [by left|].
      change (get_sections_for_role "reviewer")
        with (Some ["voice"; "identity"; "boundaries"; "communication_rules"]) in Hkeys.
      by injection Hkeys.
    + right. split; [by right; left|].
      change (get_sections_for_role "tester")
        with (Some ["voice"; "identity"; "boundaries"; "communication_rules"]) in Hkeys.
      by injection Hkeys.
    + right. split; [by right; right|].
      change (get_sections_for_role "security")
        with (Some ["voice"; "identity"; "boundaries"; "communication_rules"]) in Hkeys.
      by injection Hkeys.
  - unfold get_sections_for_role in Hkeys.
    by rewrite (dict_get_missing _ _ (ROLE_PROFILES_unknown role Hunknown)) in Hkeys.
Qed.

(** X12. [get_sections_for_role] returns a list exactly for the roles
    developer, reviewer, tester and security.  Every list it returns has no
    repeated key, keeps the order of the developer list, and contains voice,
    identity, boundaries and communication_rules; for a role other than
    developer it is exactly these four keys. *)
Theorem get_sections_for_role_lists (role : string) :
  (is_Some (get_sections_for_role role)
   ↔ role ∈ ["developer"; "reviewer"; "tester"; "security"]) ∧
  (∀ keys, get_sections_for_role role = Some keys →
     NoDup keys ∧
     keys `sublist_of` ["voice"; "identity"; "boundaries"; "thinking_mode";
                        "anti_patterns"; "communication_rules"] ∧
     ["voice"; "identity"; "boundaries"; "communication_rules"] `sublist_of` keys ∧
     (role = "developer" ∨
      keys = ["voice"; "identity"; "boundaries"; "communication_rules"])).
Proof.
  split.
  - rewrite !elem_of_cons, elem_of_nil. split.
    + intros [keys Hkeys]. apply get_sections_for_role_range in Hkeys. tauto.
    + intros [->|[->|[->|[->|[]]]]]; by eexists.
  - intros keys Hkeys.
    apply get_sections_for_role_range in Hkeys as [[-> ->]|[_ ->]].
    + split; [apply (bool_decide_unpack _); by vm_compute|].
      split; [|split; [|by left]];
        repeat first [apply sublist_nil|apply sublist_skip|apply sublist_cons].
    + split; [apply (bool_decide_unpack _); by vm_compute|].
      split; [|split; [|by right]];
        repeat first [apply sublist_nil|apply sublist_skip|apply sublist_cons].
Qed.

(** ** What a commit request leaves alone *)

(** X13. A commit request never touches prompts or subscriptions: for
    every request and outcome [create_version] leaves both tables as they
    were, and the versions table either grows by exactly the Version
    returned, at its end, or (when the request is answered with an error)
    stays as it was. *)
Theorem create_version_touches_only_versions (content_hash : Content → string)
    (history_ceiling : positive) (get_event_publisher : Exn + Publisher)
    (slug : string) (data : VersionCreate) (now : string) (w : World) :
  let served :=
    create_version content_hash history_ceiling get_event_publisher slug data now w in
  prompts (w_db served.2) = prompts (w_db w) ∧
  prompt_subscriptions (w_db served.2) = prompt_subscriptions (w_db w) ∧
  match served.1 with
  | Returned version =>
    prompt_versions (w_db served.2) = prompt_versions (w_db w) ++ [version]
  | Raised _ => prompt_versions (w_db served.2) = prompt_versions (w_db w)
  end.
Proof.
  intros served.
  destruct served as [o w1] eqn:Hserved; subst served.
  apply create_version_outcome in Hserved as [(e & -> & ->)|(prompt & _ & _ & -> & Hdb)];
    [done|].
  simpl. by rewrite Hdb.
Qed.

(** * The further properties at sample inputs *)

(** The flaky publisher accepts the event for agent-7 and raises at
    agent-9; the row of the other prompt is not reached. *)
Example notify_with_flaky_publisher :
  _notify_subscribers (inr flaky_publisher) "p-1" "greeter" 1 2 "second" "normal"
                      (world_of sample_db_two_subscribers)
  = (Returned (),
     mkWorld sample_db_two_subscribers [DbSelect SUBSCRIPTIONS "p-1"]
             [LogInfo "subscription.notified" "agent-7" "greeter" 2;
              LogWarning "subscription.notify_failed" "nats: timeout"]
             [mkEvent "prompt.updated" "swarm.forge.agent.agent-7.prompt-updated"
                      "greeter" "p-1" 1 2 "second" "normal"]).
Proof. by vm_compute. Qed.

Lemma working_publisher_never_fails : never_fails working_publisher.
Proof. by intros published ev. Qed.

Lemma notify_round_witness :
  _connected working_publisher = true ∧
  never_fails working_publisher ∧
  _notify_subscribers (inr working_publisher) "p-1" "greeter" 1 2 "second" "normal"
                      (world_of sample_db_two_subscribers)
  = (Returned (),
     after_notifying (world_of sample_db_two_subscribers) "p-1"
       (notification "p-1" "greeter" 1 2 "second" "normal"
          <$> subscribers_of (w_db (world_of sample_db_two_subscribers)) "p-1")
       (notified_line "greeter" 2
          <$> subscribers_of (w_db (world_of sample_db_two_subscribers)) "p-1")).
Proof.
  split; [reflexivity|]. split; [exact working_publisher_never_fails|].
  exact (proj2 (proj2 (notify_round_reaches_a_prefix "p-1" "greeter" 1 2 "second" "normal"
                         working_publisher (world_of sample_db_two_subscribers) eq_refl))
               working_publisher_never_fails).
Defined.

Lemma notify_skipped_witness :
  _connected offline_publisher = false ∧
  _notify_subscribers (inr offline_publisher) "p-1" "greeter" 1 2 "second" "normal"
                      (world_of sample_db_two_subscribers)
  = (Returned (), world_of sample_db_two_subscribers) ∧
  _notify_subscribers (inl (Exception "No module named nats")) "p-1" "greeter" 1 2
                      "second" "normal" (world_of sample_db_two_subscribers)
  = (Returned (),
     mkWorld (w_db (world_of sample_db_two_subscribers))
             (w_calls (world_of sample_db_two_subscribers))
             (w_log (world_of sample_db_two_subscribers)
              ++ [LogWarning "subscription.notify_failed" "No module named nats"])
             (w_published (world_of sample_db_two_subscribers))) ∧
  _notify_subscribers (inl (HTTPException 503 "publisher down")) "p-1" "greeter" 1 2
                      "second" "normal" (world_of sample_db_two_subscribers)
  = (Returned (),
     mkWorld (w_db (world_of sample_db_two_subscribers))
             (w_calls (world_of sample_db_two_subscribers))
             (w_log (world_of sample_db_two_subscribers)
              ++ [LogWarning "subscription.notify_failed"
                             (pretty 503 +:+ ": " +:+ "publisher down")])
             (w_published (world_of sample_db_two_subscribers))).
Proof.
  pose proof (notify_skipped_without_publisher "p-1" "greeter" 1 2 "second" "normal"
                offline_publisher (world_of sample_db_two_subscribers) eq_refl)
    as (Hoffline & Hmessage & Hhttp).
  split; [reflexivity|]. split; [exact Hoffline|].
  split; [exact (Hmessage "No module named nats")|exact (Hhttp 503 "publisher down")].
Defined.

(** The text logged for an [HTTPException]. *)
Example exn_str_http : exn_str (HTTPException 503 "publisher down") = "503: publisher down".
Proof. by vm_compute. Qed.

Lemma sample_subscriptions_unique :
  subscriptions_unique (prompt_subscriptions sample_db_two_subscribers).
Proof. split; apply (bool_decide_unpack _); by vm_compute. Qed.

Lemma subscriptions_unique_witness :
  subscriptions_unique (prompt_subscriptions (w_db (world_of sample_db_two_subscribers))) ∧
  subscriptions_unique
    (prompt_subscriptions
       (w_db (get_version "greeter" 1 None (Some "agent-5") "t3"
                          (world_of sample_db_two_subscribers)).2)).
Proof.
  exact (conj sample_subscriptions_unique
           (get_version_keeps_subscriptions_unique "greeter" 1 None (Some "agent-5") "t3"
              (world_of sample_db_two_subscribers) sample_subscriptions_unique)).
Defined.

Lemma fetch_recorded_witness :
  "agent-9" ≠ "" ∧
  get_version "greeter" 1 None (Some "agent-9") "t3" (world_of sample_db_two_subscribers)
  = (Returned sample_version,
     (get_version "greeter" 1 None (Some "agent-9") "t3"
                  (world_of sample_db_two_subscribers)).2) ∧
  ∃ r rest,
    rows_of (v_prompt_id sample_version) "agent-9"
            (prompt_subscriptions
               (w_db (get_version "greeter" 1 None (Some "agent-9") "t3"
                                  (world_of sample_db_two_subscribers)).2))
    = r :: rest ∧
    sub_last_pulled_at r = "t3" ∧
    (rows_of (v_prompt_id sample_version) "agent-9"
             (prompt_subscriptions (w_db (world_of sample_db_two_subscribers))) = [] →
     sub_subscribed_at r = "t3" ∧ rest = []).
Proof.
  assert ("agent-9" ≠ "") as Hagent by done.
  split; [exact Hagent|]. split; [reflexivity|].
  exact (proj1 (get_version_records_the_fetch "greeter" 1 None "agent-9" "t3"
                  (world_of sample_db_two_subscribers) _ sample_version Hagent eq_refl)).
Defined.

Lemma fetch_then_commit_witness :
  _connected working_publisher = true ∧
  never_fails working_publisher ∧
  "agent-7" ≠ "" ∧
  vc_content sample_create ≠ [] ∧
  get_version "greeter" 1 None (Some "agent-7") "t3" (world_of sample_db)
  = (Returned sample_version,
     (get_version "greeter" 1 None (Some "agent-7") "t3" (world_of sample_db)).2) ∧
  ∃ new w2,
    create_version sample_hash 100 (inr working_publisher) "greeter" sample_create "t5"
      (get_version "greeter" 1 None (Some "agent-7") "t3" (world_of sample_db)).2
    = (Returned new, w2) ∧
    v_prompt_id new = v_prompt_id sample_version ∧
    mkEvent "prompt.updated" (subject_of "agent-7") "greeter" (v_prompt_id sample_version)
            (observed_head 100
               (w_db (get_version "greeter" 1 None (Some "agent-7") "t3"
                                  (world_of sample_db)).2)
               (v_prompt_id sample_version) (vc_branch sample_create))
            (v_version new) (vc_message sample_create) (priority_of sample_create)
    ∈ w_published w2.
Proof.
  assert ("agent-7" ≠ "") as Hagent by done.
  assert (vc_content sample_create ≠ []) as Hcontent by done.
  split; [reflexivity|]. split; [exact working_publisher_never_fails|].
  split; [exact Hagent|]. split; [exact Hcontent|]. split; [reflexivity|].
  exact (fetch_then_commit_notifies_the_agent sample_hash 100 working_publisher "greeter" 1
           None "agent-7" "t3" sample_create "t5" (world_of sample_db) _ sample_version
           eq_refl working_publisher_never_fails Hagent Hcontent eq_refl).
Defined.

Lemma unknown_slug_witness :
  head (filter (λ p, p_slug p = "nobody") (prompts (w_db (world_of sample_db)))) = None ∧
  create_version sample_hash 100 failing_publisher "nobody" sample_create "t5"
                 (world_of sample_db)
  = (Raised (HTTPException 404 "Prompt 'nobody' not found"), world_of sample_db) ∧
  get_version "nobody" 1 None (Some "agent-7") "t3" (world_of sample_db)
  = (Raised (HTTPException 404 "Prompt 'nobody' not found"), world_of sample_db) ∧
  rollback_version sample_hash "main" "nobody" (mkRollbackRequest 1 "eve") "t9"
                   (world_of sample_db)
  = (Raised (HTTPException 404 "Prompt 'nobody' not found"), world_of sample_db).
Proof.
  pose proof (unknown_slug_is_404_everywhere sample_hash 100 "main" failing_publisher
                "nobody" (world_of sample_db) eq_refl)
    as (_ & Hcreate & _ & Hget & _ & Hrollback).
  split; [reflexivity|]. split; [exact (Hcreate sample_create "t5")|].
  split; [exact (Hget 1 None (Some "agent-7") "t3")|].
  exact (Hrollback (mkRollbackRequest 1 "eve") "t9").
Defined.

Lemma list_versions_bound_witness :
  0 ≤ 200 ∧ -3 ≤ 200 ∧ 200 < 201 ∧
  registered (w_db (world_of sample_db)) "greeter" (mkPrompt "p-1" "greeter") ∧
  list_versions 1000 "greeter" None (Some 0) (world_of sample_db)
  = vcs_history 1000 "p-1" "main" 0 (world_of sample_db) ∧
  list_versions 1000 "greeter" None (Some (-3)) (world_of sample_db)
  = vcs_history 1000 "p-1" "main" (-3) (world_of sample_db) ∧
  list_versions 1000 "nobody" None (Some 201) (world_of sample_db)
  = (Raised (RequestValidationError "limit"), world_of sample_db).
Proof.
  assert (0 ≤ 200) as H0 by done. assert (-3 ≤ 200) as H3 by done.
  assert (200 < 201) as H201 by done.
  split; [exact H0|]. split; [exact H3|]. split; [exact H201|].
  split; [exact sample_registered|]. split; [|split].
  - exact (proj1 (proj2 (list_versions_checks_only_the_upper_bound 1000 "greeter"
                           None (world_of sample_db)))
                 0 (mkPrompt "p-1" "greeter") H0 sample_registered).
  - exact (proj1 (proj2 (list_versions_checks_only_the_upper_bound 1000 "greeter"
                           None (world_of sample_db)))
                 (-3) (mkPrompt "p-1" "greeter") H3 sample_registered).
  - exact (proj1 (list_versions_checks_only_the_upper_bound 1000 "nobody" None
                    (world_of sample_db)) 201 H201).
Defined.
